(** * The AI-provider gateway (node-mcp-server/src/server.ts) and its
      caller client (laravel-api-mcp-client/app/Services/McpClient.php)

    A shallow embedding of [callAI], of the two Express handlers and of the
    two methods of [McpClient], with the properties of the specification
    stated over them; then the controller that uses the client
    (BusinessProposalController.php) and the two handlers of the form
    component (BusinessProposal.tsx), with properties read off the code. *)

From Stdlib Require Import ZArith Ascii String List.
From stdpp Require Import base tactics option list strings gmap.

Set Warnings "-register-all".
Open Scope string_scope.
Open Scope list_scope.
Open Scope Z_scope.

(** ** JavaScript values

    The values the gateway handles are JSON data (request bodies, vendor
    responses) plus [undefined].  A number is carried by the text JavaScript
    prints for it (ToString and JSON.stringify agree on finite numbers), which
    is all the program ever does with one besides forwarding it.  An object is
    its list of own properties; a lookup takes the first binding of a key. *)
Inductive JValue : Type :=
  | JUndefined
  | JNull
  | JBool (b : bool)
  | JNum (lit : string)
  | JStr (s : string)
  | JArr (elems : list JValue)
  | JObj (props : list (string * JValue)).

(** The line feed of a template literal's [\n]. *)
Definition LF : string := String (ascii_of_nat 10) EmptyString.

(** ToBoolean, as [c ? a : b] and [a || b] apply it.  NaN cannot come out of
    JSON, so the only falsy number prints as 0 (this covers -0). *)
Definition truthy (v : JValue) : bool :=
  match v with
  | JUndefined | JNull => false
  | JBool b => b
  | JNum lit => negb (String.eqb lit "0")
  | JStr s => negb (String.eqb s "")
  | JArr _ | JObj _ => true
  end.

(** [v == null], the test optional chaining makes. *)
Definition nullish (v : JValue) : bool :=
  match v with
  | JUndefined | JNull => true
  | _ => false
  end.

Definition join_with (sep : string) (parts : list string) : string :=
  match parts with
  | [] => ""
  | p :: ps => fold_left (fun acc q => acc +:+ sep +:+ q) ps p
  end.

(** [a === 'literal']: true exactly on the string itself. *)
Definition strict_eq_str (v : JValue) (literal : string) : bool :=
  match v with
  | JStr s => String.eqb s literal
  | _ => false
  end.

Fixpoint assoc (k : string) (props : list (string * JValue)) : option JValue :=
  match props with
  | [] => None
  | (k', v) :: rest => if String.eqb k k' then Some v else assoc k rest
  end.

(** The one-character string at position [i] of [s], if any. *)
Fixpoint char_at (s : string) (i : nat) : option string :=
  match s, i with
  | EmptyString, _ => None
  | String c _, O => Some (String c EmptyString)
  | String _ rest, S j => char_at rest j
  end.

(** Property keys: [v.name] and [v[0]].  The program reads the names
    choices, message, content, candidates, parts, text, provider, proposal, id
    and the index 0; none of them is a built-in property of arrays, strings,
    numbers or booleans, so on those only an index can hit. *)
Inductive Key : Type :=
  | KName (name : string)
  | KIndex0.

(** The own property [k] of [v], when [v] has one. *)
Definition own (v : JValue) (k : Key) : option JValue :=
  match v, k with
  | JObj props, KName name => assoc name props
  | JObj props, KIndex0 => assoc "0" props
  | JArr elems, KIndex0 => head elems
  | JStr s, KIndex0 => JStr <$> char_at s 0
  | _, _ => None
  end.

(** [v[k]] on a value that is neither null nor undefined: a property that is
    not there reads as undefined. *)
Definition member (v : JValue) (k : Key) : JValue :=
  default JUndefined (own v k).

(** ** Thrown values and results *)
Inductive Thrown : Type :=
  | Error (message : string)
  | TypeError (message : string)
  (** what axios rejects with; [response] is absent when no response came *)
  | AxiosError (response : option (Z * JValue)).

Inductive Result (A : Type) : Type :=
  | Return (a : A)
  | Throw (e : Thrown).
Arguments Return {A} a.
Arguments Throw {A} e.

(** [v.name]: a TypeError on null and undefined. *)
Definition get (v : JValue) (k : Key) : Result JValue :=
  if nullish v then Throw (TypeError "Cannot read properties")
  else Return (member v k).

(** [v?.name], [v?.[0]]: undefined on null and undefined.  Every link after
    the first [?.] in the program's chains is itself optional, so the
    short-circuit of the rest of the chain is the same value. *)
Definition opt (v : JValue) (k : Key) : JValue :=
  if nullish v then JUndefined else member v k.

(** ToString, as a template literal applies it to an interpolated value.
    Data that came out of JSON holds no function: an object with an own
    toString property has nothing callable to convert it (the inherited
    valueOf gives the object back), so the conversion throws a TypeError; any
    other object prints as [object Object].  An array joins the texts of its
    elements, null and undefined counting as empty. *)
Fixpoint ToString (v : JValue) : Result string :=
  match v with
  | JUndefined => Return "undefined"
  | JNull => Return "null"
  | JBool true => Return "true"
  | JBool false => Return "false"
  | JNum lit => Return lit
  | JStr s => Return s
  | JArr elems =>
      match (fix texts (es : list JValue) : Result (list string) :=
               match es with
               | [] => Return []
               | e :: rest =>
                   match (if nullish e then Return "" else ToString e) with
                   | Return t =>
                       match texts rest with
                       | Return ts => Return (t :: ts)
                       | Throw err => Throw err
                       end
                   | Throw err => Throw err
                   end
               end) elems with
      | Return parts => Return (join_with "," parts)
      | Throw err => Throw err
      end
  | JObj props =>
      match assoc "toString" props with
      | Some _ => Throw (TypeError "Cannot convert object to primitive value")
      | None => Return "[object Object]"
      end
  end.

(** Whether a value can be interpolated at all, and the text it gives. *)
Definition printable (v : JValue) : bool :=
  match ToString v with
  | Return _ => true
  | Throw _ => false
  end.

Definition text_of (v : JValue) : string :=
  match ToString v with
  | Return t => t
  | Throw _ => ""
  end.

(** What [JSON.stringify] puts on the wire, read back by the receiver:
    a property whose value is undefined is left out, an undefined array
    element becomes null. *)
Fixpoint on_wire (v : JValue) : JValue :=
  match v with
  | JArr elems =>
      JArr (map (fun e => match e with
                          | JUndefined => JNull
                          | _ => on_wire e
                          end) elems)
  | JObj props =>
      JObj ((fix props_on_wire (ps : list (string * JValue)) :=
               match ps with
               | [] => []
               | (k, JUndefined) :: rest => props_on_wire rest
               | (k, x) :: rest => (k, on_wire x) :: props_on_wire rest
               end) props)
  | _ => v
  end.

(** ** Outbound HTTP

    One request as handed to [axios.post(url, data, {headers})], and what the
    vendor side does with it: no response at all (DNS, refused connection,
    reset) or a response with a status and a parsed body.  A call that never
    completes is outside this model, as the program sets no timeout. *)
Record HttpRequest : Type := mkRequest {
  url : string;
  data : JValue;
  headers : list (string * string)
}.

Inductive Transport : Type :=
  | NoResponse
  | Response (status : Z) (body : JValue).

(** The effect of the program: the outbound requests issued so far, oldest
    first.  Console output is diagnostic only and is not modelled. *)
Definition World : Type := list HttpRequest.

Definition M (A : Type) : Type := World -> Result A * World.

Definition throw {A} (e : Thrown) : M A := fun w => (Throw e, w).
Definition lift {A} (r : Result A) : M A := fun w => (r, w).

#[global] Instance M_ret : MRet M := fun A a w => (Return a, w).
#[global] Instance M_bind : MBind M := fun A B f m w =>
  match m w with
  | (Return a, w') => f a w'
  | (Throw e, w') => (Throw e, w')
  end.

(** [try { body } catch (err) { handler }] *)
Definition try_catch {A} (body : M A) (handler : Thrown -> M A) : M A :=
  fun w => match body w with
           | (Return a, w') => (Return a, w')
           | (Throw e, w') => handler e w'
           end.

(** [process.env]: names to strings. *)
Abbreviation Env := (gmap string string).

(** [`${process.env.NAME}`]: an unset variable interpolates as the text
    undefined. *)
Definition env_text (env : Env) (name : string) : string :=
  default "undefined" (env !! name).

(** [process.env.NAME || fallback] *)
Definition env_or (env : Env) (name : string) (fallback : JValue) : JValue :=
  match env !! name with
  | Some s => if truthy (JStr s) then JStr s else fallback
  | None => fallback
  end.

Section Gateway.

(** The environment the process was started in and the outside world the
    requests go to. *)
Variable env : Env.
Variable vendor : HttpRequest -> Transport.

(** [await axios.post(url, data, {headers})] with axios' defaults: the request
    is issued; the promise resolves with the response (here its [data]) when
    the status is in 200..299 and rejects otherwise. *)
Definition axios_post (u : string) (d : JValue) (hs : list (string * string))
  : M JValue :=
  fun w =>
    let req := mkRequest u d hs in
    match vendor req with
    | NoResponse => (Throw (AxiosError None), w ++ [req])
    | Response st body =>
        if (200 <=? st) && (st <? 300)
        then (Return body, w ++ [req])
        else (Throw (AxiosError (Some (st, body))), w ++ [req])
    end.

(** server.ts, lines 23-136. *)
Definition callAI (provider systemPrompt userPrompt : JValue) : M JValue :=
  (* the three log lines interpolate the arguments *)
  _ ← lift (ToString provider);
  _ ← lift (ToString systemPrompt);
  _ ← lift (ToString userPrompt);
  if strict_eq_str provider "groq" then
    try_catch
      (res_data ← axios_post
         "https://api.groq.com/openai/v1/chat/completions"
         (JObj [("model", JStr "meta-llama/llama-4-scout-17b-16e-instruct");
                ("messages",
                 JArr ((if truthy systemPrompt
                        then [JObj [("role", JStr "system");
                                    ("content", systemPrompt)]]
                        else [])
                       ++ [JObj [("role", JStr "user");
                                 ("content", userPrompt)]]));
                ("temperature", JNum "0.7")])
         [("Authorization", "Bearer " +:+ env_text env "GROQ_API_KEY");
          ("Content-Type", "application/json")];
       choices ← lift (get res_data (KName "choices"));
       mret (opt (opt (opt choices KIndex0) (KName "message")) (KName "content")))
      (fun err => throw err)
  else if strict_eq_str provider "openai" then
    try_catch
      (res_data ← axios_post
         "https://api.openai.com/v1/chat/completions"
         (JObj [("model", JStr "gpt-4");
                ("messages",
                 JArr ((if truthy systemPrompt
                        then [JObj [("role", JStr "system");
                                    ("content", systemPrompt)]]
                        else [])
                       ++ [JObj [("role", JStr "user");
                                 ("content", userPrompt)]]));
                ("temperature", JNum "0.7")])
         [("Authorization", "Bearer " +:+ env_text env "CHATGPT_API_KEY");
          ("Content-Type", "application/json")];
       choices ← lift (get res_data (KName "choices"));
       mret (opt (opt (opt choices KIndex0) (KName "message")) (KName "content")))
      (fun err => throw err)
  else if strict_eq_str provider "deepseek" then
    try_catch
      (res_data ← axios_post
         "https://api.deepseek.com/v1/chat/completions"
         (JObj [("model", JStr "deepseek-chat");
                ("messages",
                 JArr ((if truthy systemPrompt
                        then [JObj [("role", JStr "system");
                                    ("content", systemPrompt)]]
                        else [])
                       ++ [JObj [("role", JStr "user");
                                 ("content", userPrompt)]]));
                ("temperature", JNum "0.7")])
         [("Authorization", "Bearer " +:+ env_text env "DEEPSEEK_API_KEY");
          ("Content-Type", "application/json")];
       choices ← lift (get res_data (KName "choices"));
       mret (opt (opt (opt choices KIndex0) (KName "message")) (KName "content")))
      (fun err => throw err)
  else if strict_eq_str provider "gemini" then
    try_catch
      (fullPrompt ←
         (if truthy systemPrompt
          then system_text ← lift (ToString systemPrompt);
               user_text ← lift (ToString userPrompt);
               mret (JStr (system_text +:+ LF +:+ LF +:+ user_text))
          else mret userPrompt);
       res_data ← axios_post
         ("https://generativelanguage.googleapis.com/v1beta/models/gemini-pro:generateContent?key="
            +:+ env_text env "GEMINI_API_KEY")
         (JObj [("contents",
                 JArr [JObj [("parts", JArr [JObj [("text", fullPrompt)]])]])])
         [("Content-Type", "application/json")];
       candidates ← lift (get res_data (KName "candidates"));
       let text :=
         opt (opt (opt (opt (opt candidates KIndex0) (KName "content"))
                     (KName "parts")) KIndex0) (KName "text") in
       mret (if truthy text then text else JStr ""))
      (fun err => throw err)
  else throw (Error "Unsupported provider").

(** ** The server: configuration, start-up and the two routes *)

(** The built-in [JSON.stringify] on a defined value, as text. *)
Variable JSON_stringify : JValue -> string.

(** [`${JSON.stringify(v)}`]: of undefined, [JSON.stringify] gives undefined,
    which the template prints. *)
Definition stringify_text (v : JValue) : string :=
  match v with
  | JUndefined => "undefined"
  | _ => JSON_stringify v
  end.

Definition defaultProvider : JValue := env_or env "AI_PROVIDER" (JStr "groq").

(** What a handler sends back: [res.json(x)] answers 200, and
    [res.status(c).json(x)] answers [c]; the body is [x] as serialised. *)
Record HttpReply : Type := mkReply {
  code : Z;
  payload : JValue
}.

Definition res_json (c : Z) (x : JValue) : HttpReply := mkReply c (on_wire x).

(** [const { name = fallback } = source]: the default applies to undefined
    only. *)
Definition or_default (v fallback : JValue) : JValue :=
  match v with
  | JUndefined => fallback
  | _ => v
  end.

Definition ENHANCE_PROMPT : string :=
  "Enhance this business proposal text to be more professional and compelling. Keep the original meaning but improve clarity and impact.".

Definition GENERATE_PROMPT : string :=
  "Generate a professional HTML template for a business proposal. Use this JSON data: ".

(** server.ts, lines 139-153.  The destructuring of [req.body] stands before
    the [try]; a [Throw] of the handler is a rejection nobody handles. *)
Definition text_enhancement (req_body : JValue) : M HttpReply :=
  text ← lift (get req_body (KName "text"));
  p ← lift (get req_body (KName "provider"));
  let provider := or_default p defaultProvider in
  try_catch
    (let systemPrompt := JStr ENHANCE_PROMPT in
     result ← callAI provider systemPrompt text;
     mret (res_json 200 (JObj [("success", JBool true);
                               ("enhancedText", result)])))
    (fun err =>
       mret (res_json 500 (JObj [("success", JBool false);
                                 ("error", JStr "Failed to enhance text")]))).

(** server.ts, lines 156-169. *)
Definition generate_html (req_body : JValue) : M HttpReply :=
  proposal ← lift (get req_body (KName "proposal"));
  p ← lift (get req_body (KName "provider"));
  let provider := or_default p defaultProvider in
  try_catch
    (let systemPrompt := JStr (GENERATE_PROMPT +:+ stringify_text proposal) in
     result ← callAI provider systemPrompt (JStr "");
     mret (res_json 200 (JObj [("success", JBool true);
                               ("html", result)])))
    (fun err =>
       mret (res_json 500 (JObj [("success", JBool false);
                                 ("error", JStr "Failed to generate HTML")]))).



End Gateway.

(** The environment variable each provider's credential is read from. *)
Definition credential_name (provider : string) : option string :=
  if String.eqb provider "groq" then Some "GROQ_API_KEY"
  else if String.eqb provider "openai" then Some "CHATGPT_API_KEY"
  else if String.eqb provider "deepseek" then Some "DEEPSEEK_API_KEY"
  else if String.eqb provider "gemini" then Some "GEMINI_API_KEY"
  else None.

Definition known_providers : list string :=
  ["groq"; "openai"; "deepseek"; "gemini"].

Definition chat_providers : list string := ["groq"; "openai"; "deepseek"].

(** ** The caller client (McpClient.php) *)
Module McpClient.

(** What [Http::post] gives: the framework raises a ConnectionException when
    no response is obtained, and returns the response whatever its status.
    [decoded] is [json_decode($body, true)]: absent when the body is not
    JSON. *)
Inductive HttpOutcome : Type :=
  | ConnectionFailed
  | Answered (status : Z) (decoded : option JValue).

Inductive PhpThrown : Type :=
  | ConnectionException
  | PhpTypeError.

Inductive PhpResult : Type :=
  | Returned (s : string)
  | Raised (e : PhpThrown).

(** [$response->json($key)]: [data_get] on the decoded body; null (here
    [JNull]) when the body is not an array with that key. *)
Definition json (decoded : option JValue) (key : string) : JValue :=
  match decoded with
  | Some (JObj props) => default JNull (assoc key props)
  | _ => JNull
  end.

Section Client.

(** The fields set by the constructor, and the HTTP client behind the
    facade. *)
Variable mcpServerUrl : string.
Variable defaultProvider : string.
Variable Http_post : string -> JValue -> HttpOutcome.

(** How PHP prints a decoded number when it coerces it to string. *)
Variable strval_number : string -> string.

(** [return $v;] from a method declared [: string], outside strict mode:
    scalars are converted, an array is a TypeError. *)
Definition return_string (v : JValue) : PhpResult :=
  match v with
  | JStr s => Returned s
  | JNum lit => Returned (strval_number lit)
  | JBool true => Returned "1"
  | JBool false => Returned ""
  | JArr _ | JObj _ => Raised PhpTypeError
  | JNull | JUndefined => Raised PhpTypeError
  end.

(** [$a ?? $b] *)
Definition coalesce (a b : JValue) : JValue :=
  match a with
  | JNull | JUndefined => b
  | _ => a
  end.

(** McpClient.php, lines 18-28. *)
Definition enhanceText (text : string) (provider : option string) : PhpResult :=
  match Http_post (mcpServerUrl +:+ "/mcp/text-enhancement")
          (JObj [("text", JStr text);
                 ("provider", JStr (default defaultProvider provider))]) with
  | ConnectionFailed => Raised ConnectionException
  | Answered _ decoded =>
      return_string (coalesce (json decoded "enhancedText") (JStr text))
  end.

(** McpClient.php, lines 30-38. *)
Definition generateHtml (proposalData : JValue) (provider : option string)
  : PhpResult :=
  match Http_post (mcpServerUrl +:+ "/mcp/generate-html")
          (JObj [("proposal", proposalData);
                 ("provider", JStr (default defaultProvider provider))]) with
  | ConnectionFailed => Raised ConnectionException
  | Answered _ decoded =>
      return_string (coalesce (json decoded "html") (JStr ""))
  end.

End Client.
End McpClient.

(** * Properties *)

(** ** Reading a path of properties

    [at_path v ks] follows the keys [ks] from [v] through properties that are
    really there; it is the reading of "the content of the first choice" and
    of "the text of the first part" that the statements below use. *)
Fixpoint at_path (v : JValue) (ks : list Key) : option JValue :=
  match ks with
  | [] => Some v
  | k :: rest => own v k ≫= fun x => at_path x rest
  end.

Definition chat_path : list Key :=
  [KName "choices"; KIndex0; KName "message"; KName "content"].

Definition gemini_path : list Key :=
  [KName "candidates"; KIndex0; KName "content"; KName "parts"; KIndex0;
   KName "text"].

Definition header (name : string) (hs : list (string * string)) : option string :=
  snd <$> find (fun h => String.eqb (fst h) name) hs.

Definition role_message (role content : string) : JValue :=
  JObj [("role", JStr role); ("content", JStr content)].

Definition is_2xx (st : Z) : bool := (200 <=? st) && (st <? 300).

(** The three chat-style branches of [callAI] differ in the endpoint, the
    model and the credential only; these tables name the differences, and
    [chat_request] is the request such a branch hands to axios. *)
Definition chat_endpoint (provider : string) : string :=
  if String.eqb provider "groq"
  then "https://api.groq.com/openai/v1/chat/completions"
  else if String.eqb provider "openai"
  then "https://api.openai.com/v1/chat/completions"
  else "https://api.deepseek.com/v1/chat/completions".

Definition chat_model (provider : string) : string :=
  if String.eqb provider "groq"
  then "meta-llama/llama-4-scout-17b-16e-instruct"
  else if String.eqb provider "openai" then "gpt-4"
  else "deepseek-chat".

Definition chat_request (env : Env) (provider : string)
    (systemPrompt userPrompt : JValue) : HttpRequest :=
  mkRequest (chat_endpoint provider)
    (JObj [("model", JStr (chat_model provider));
           ("messages",
            JArr ((if truthy systemPrompt
                   then [JObj [("role", JStr "system");
                               ("content", systemPrompt)]]
                   else [])
                  ++ [JObj [("role", JStr "user"); ("content", userPrompt)]]));
           ("temperature", JNum "0.7")])
    [("Authorization",
      "Bearer " +:+ env_text env (default "" (credential_name provider)));
     ("Content-Type", "application/json")].

Definition gemini_request (env : Env) (systemPrompt userPrompt : JValue)
  : HttpRequest :=
  mkRequest
    ("https://generativelanguage.googleapis.com/v1beta/models/gemini-pro:generateContent?key="
       +:+ env_text env "GEMINI_API_KEY")
    (JObj [("contents",
            JArr [JObj [("parts",
                         JArr [JObj [("text",
                                      if truthy systemPrompt
                                      then JStr (text_of systemPrompt +:+ LF
                                                 +:+ LF +:+ text_of userPrompt)
                                      else userPrompt)]])]])])
    [("Content-Type", "application/json")].

(** What becomes of a request once the vendor has dealt with it, given how
    the branch reads the body of a 2xx response. *)
Definition outcome_of (vendor : HttpRequest -> Transport) (r : HttpRequest)
    (read : JValue -> JValue) (w : World) : Result JValue * World :=
  match vendor r with
  | NoResponse => (Throw (AxiosError None), w ++ [r])
  | Response st body =>
      if is_2xx st then
        if nullish body
        then (Throw (TypeError "Cannot read properties"), w ++ [r])
        else (Return (read body), w ++ [r])
      else (Throw (AxiosError (Some (st, body))), w ++ [r])
  end.

Definition read_chat (body : JValue) : JValue :=
  default JUndefined (at_path body chat_path).

Definition read_gemini (body : JValue) : JValue :=
  let text := default JUndefined (at_path body gemini_path) in
  if truthy text then text else JStr "".

(** The message sequence as the specification words it: a system turn only
    for a non-empty system prompt, then the user turn. *)
Definition chat_messages (systemPrompt userPrompt : string) : list JValue :=
  (if decide (systemPrompt = "") then []
   else [role_message "system" systemPrompt])
  ++ [role_message "user" userPrompt].

(** Vendors and bodies used as concrete inputs below. *)
Definition answers (st : Z) (body : JValue) : HttpRequest -> Transport :=
  fun _ => Response st body.

Definition unreachable : HttpRequest -> Transport := fun _ => NoResponse.

Definition chat_body (content : string) : JValue :=
  JObj [("choices",
         JArr [JObj [("message",
                      JObj [("role", JStr "assistant");
                            ("content", JStr content)])]])].

Definition gemini_body (text : string) : JValue :=
  JObj [("candidates",
         JArr [JObj [("content",
                      JObj [("parts", JArr [JObj [("text", JStr text)]])])]])].

(** The two bodies a handler can send, as the client reads them: the field
    of a success is not there when the result was undefined. *)
Definition success_payload (field : string) (result : JValue) : JValue :=
  JObj (("success", JBool true)
        :: match result with
           | JUndefined => []
           | _ => [(field, on_wire result)]
           end).

Definition failure_payload (message : string) : JValue :=
  JObj [("success", JBool false); ("error", JStr message)].

(** The provider a handler calls for a request body. *)
Definition provider_of (env : Env) (req_body : JValue) : JValue :=
  or_default (member req_body (KName "provider")) (defaultProvider env).


(** A gateway nobody answers for, a base URL and a proposal, as concrete
    inputs for the client. *)
Definition gateway_down : string -> JValue -> McpClient.HttpOutcome :=
  fun _ _ => McpClient.ConnectionFailed.

Definition gateway_answers (st : Z) (body : JValue)
  : string -> JValue -> McpClient.HttpOutcome :=
  fun _ _ => McpClient.Answered st (Some body).

Definition web_proposal : JValue :=
  JObj [("title", JStr "Web Proposal");
        ("content", JStr "We build high-quality applications.");
        ("created_at", JStr "2024-01-01")].


(** ** The controller (BusinessProposalController.php) *)
Module BusinessProposalController.

Section Controller.

(** The client injected by the constructor: its fields and its HTTP
    transport. *)
Variable mcpServerUrl : string.
Variable defaultProvider : string.
Variable Http_post : string -> JValue -> McpClient.HttpOutcome.
Variable strval_number : string -> string.

(** [$request->validate(['text' => 'required|string', 'title' =>
    'required|string'])]: the validated text and title, or nothing when a
    rule fails. *)
Variable validate : JValue -> option (string * string).

(** Timestamps and [->format('Y-m-d')]. *)
Context {Carbon : Type}.
Variable format_Ymd : Carbon -> string.

(** A row of business_proposals (the migration's columns). *)
Record BusinessProposal : Type := mkProposal {
  id : nat;
  title : string;
  original_text : string;
  enhanced_text : string;
  status : string;
  created_at : Carbon;
  updated_at : Carbon
}.

(** The table: its rows in insertion order and the next auto-increment
    value. *)
Record Table : Type := mkTable {
  rows : list BusinessProposal;
  next_id : nat
}.

Inductive Raised : Type :=
  | ValidationException
  | ModelNotFoundException
  | FromClient (e : McpClient.PhpThrown).

Inductive Response : Type :=
  (** [response()->json($model, $status)] *)
  | JsonResponse (code : Z) (model : BusinessProposal)
  (** [response($body)->header('Content-Type', 'text/html')] *)
  | HtmlResponse (code : Z) (body : string).

Inductive Outcome : Type :=
  | Responds (r : Response)
  | Raises (e : Raised).

(** [BusinessProposal::create([...])] at time [now]. *)
Definition create (t original enhanced st : string) (now : Carbon)
    (db : Table) : BusinessProposal * Table :=
  let row := mkProposal (next_id db) t original enhanced st now now in
  (row, mkTable (rows db ++ [row]) (S (next_id db))).

(** [BusinessProposal::findOrFail($id)]: the row, or nothing (the framework
    then raises ModelNotFoundException). *)
Definition find_row (key : nat) (db : Table) : option BusinessProposal :=
  find (fun r => Nat.eqb (id r) key) (rows db).

(** BusinessProposalController.php, lines 17-35. *)
Definition createBusinessProposal (request : JValue) (now : Carbon)
    (db : Table) : Outcome * Table :=
  match validate request with
  | None => (Raises ValidationException, db)
  | Some (text, t) =>
      match McpClient.enhanceText mcpServerUrl defaultProvider Http_post
              strval_number text None with
      | McpClient.Raised e => (Raises (FromClient e), db)
      | McpClient.Returned enhancedText =>
          let (proposal, db') :=
            create t text enhancedText "draft" now db in
          (Responds (JsonResponse 201 proposal), db')
      end
  end.

(** BusinessProposalController.php, lines 37-48. *)
Definition showBusinessProposal (key : nat) (db : Table) : Outcome :=
  match find_row key db with
  | None => Raises ModelNotFoundException
  | Some proposal =>
      match McpClient.generateHtml mcpServerUrl defaultProvider Http_post
              strval_number
              (JObj [("title", JStr (title proposal));
                     ("content", JStr (enhanced_text proposal));
                     ("created_at", JStr (format_Ymd (created_at proposal)))])
              None with
      | McpClient.Raised e => Raises (FromClient e)
      | McpClient.Returned html => Responds (HtmlResponse 200 html)
      end
  end.

(** Every stored key is below the next auto-increment value. *)
Definition keys_below_next (db : Table) : Prop :=
  Forall (fun r => (id r < next_id db)%nat) (rows db).

End Controller.
End BusinessProposalController.

(** ** The form component (BusinessProposal.tsx) *)
Module BusinessProposalForm.

Record FormData : Type := mkForm {
  title : string;
  text : string;
  provider : string
}.

(** The four pieces of component state. *)
Record View : Type := mkView {
  formData : FormData;
  proposal : JValue;
  htmlPreview : JValue;
  loading : bool
}.

(** BusinessProposal.tsx, lines 5-12. *)
Definition initial : View :=
  mkView
    (mkForm "Proposal for a web site development"
       "Create me a business proposal for a web site development like Temu. Include about a matching tech stack as well."
       "groq")
    JNull (JStr "") false.

Definition setProposal (v : JValue) (s : View) : View :=
  mkView (formData s) v (htmlPreview s) (loading s).
Definition setHtmlPreview (v : JValue) (s : View) : View :=
  mkView (formData s) (proposal s) v (loading s).
Definition setLoading (b : bool) (s : View) : View :=
  mkView (formData s) (proposal s) (htmlPreview s) b.

(** The two calls the component makes: [axios.post(url, data)] and
    [axios.get(url, {params})]. *)
Inductive ApiCall : Type :=
  | POST (url : string) (data : JValue)
  | GET (url : string) (params : JValue).

(** What a handler did: nothing at all; or one call, with the state shown
    while it was awaited and the state once it settled; or it ran to its end
    without a call, an exception caught before the call was made. *)
Inductive Run : Type :=
  | Skipped
  | Awaited (pending : View) (call : ApiCall) (settled : View)
  | Caught (settled : View).

Section Component.

(** The build-time environment and the backend behind the calls. *)
Variable env : Env.
Variable backend : ApiCall -> Transport.

(** [await axios.post(...)] / [await axios.get(...)]: the response's data on
    a status in 200..299, a rejection otherwise. *)
Definition axios (c : ApiCall) : Result JValue :=
  match backend c with
  | NoResponse => Throw (AxiosError None)
  | Response st body =>
      if (200 <=? st) && (st <? 300) then Return body
      else Throw (AxiosError (Some (st, body)))
  end.

(** BusinessProposal.tsx, lines 14-33. *)
Definition handleSubmit (s : View) : Run :=
  let s1 := setLoading true s in
  let c :=
    POST (env_text env "REACT_APP_LARAVEL_API_BASE_URL"
          +:+ "/api/business-proposals")
      (JObj [("title", JStr (title (formData s)));
             ("text", JStr (text (formData s)));
             ("provider", JStr (provider (formData s)))]) in
  let s2 :=
    match axios c with
    | Return response_data => setProposal response_data s1
    | Throw error => s1
    end in
  Awaited s1 c (setLoading false s2).

(** BusinessProposal.tsx, lines 35-50.  The url is built inside the [try]:
    an id that cannot be interpolated is caught there, before any call. *)
Definition handlePreview (s : View) : Run :=
  if negb (truthy (proposal s)) then Skipped
  else
    let s1 := setLoading true s in
    match ToString (member (proposal s) (KName "id")) with
    | Throw error => Caught (setLoading false s1)
    | Return id_text =>
        let c :=
          GET (env_text env "REACT_APP_LARAVEL_API_BASE_URL"
               +:+ "/api/business-proposals/" +:+ id_text +:+ "/preview")
            (JObj [("provider", JStr (provider (formData s)))]) in
        let s2 :=
          match axios c with
          | Return response_data => setHtmlPreview response_data s1
          | Throw error => s1
          end in
        Awaited s1 c (setLoading false s2)
    end.

(** The state a handler leaves behind. *)
Definition after (r : Run) (s : View) : View :=
  match r with
  | Skipped => s
  | Awaited _ _ settled => settled
  | Caught settled => settled
  end.

End Component.
End BusinessProposalForm.

(** Concrete inputs for the controller. *)
Definition validate_text_title (request : JValue) : option (string * string) :=
  match own request (KName "text"), own request (KName "title") with
  | Some (JStr text), Some (JStr title) =>
      if String.eqb text "" || String.eqb title "" then None
      else Some (text, title)
  | _, _ => None
  end.

Definition empty_table : BusinessProposalController.Table (Carbon := string) :=
  BusinessProposalController.mkTable [] 1.

Definition stored_proposal : BusinessProposalController.BusinessProposal :=
  BusinessProposalController.mkProposal 1 "Web Proposal" "We build apps"
    "We build apps" "draft" "2024-01-01" "2024-01-01".

Definition one_row_table : BusinessProposalController.Table :=
  BusinessProposalController.mkTable [stored_proposal] 2.

(** A gateway that answers requests naming deepseek and is out of reach for
    any other. *)
Definition deepseek_only (st : Z) (body : JValue)
  : string -> JValue -> McpClient.HttpOutcome :=
  fun _ payload =>
    match own payload (KName "provider") with
    | Some (JStr "deepseek") => McpClient.Answered st (Some body)
    | _ => McpClient.ConnectionFailed
    end.

(** What PHP calls an array: a decoded JSON array or object. *)
Definition is_array (v : JValue) : bool :=
  match v with
  | JArr _ | JObj _ => true
  | _ => false
  end.

Definition web_request : JValue :=
  JObj [("text", JStr "We build apps"); ("title", JStr "Web Proposal");
        ("provider", JStr "openai")].

Lemma own_nullish v k : nullish v = true → own v k = None.
Proof. by destruct v, k. Qed.

Lemma opt_own v k : opt v k = default JUndefined (own v k).
Proof.
  unfold opt, member. destruct (nullish v) eqn:E; [|done].
  by rewrite own_nullish.
Qed.

Lemma at_path_undefined k ks : at_path JUndefined (k :: ks) = None.
Proof. by destruct k. Qed.

Lemma opt_chain ks v :
  fold_left opt ks v = default JUndefined (at_path v ks).
Proof.
  revert v. induction ks as [|k ks IH]; intros v; [done|].
  cbn [fold_left at_path]. rewrite IH, opt_own.
  destruct (own v k) as [x|]; cbn; [done|].
  destruct ks; [done|]. by rewrite at_path_undefined.
Qed.

(** [data.k0?.k1?. ... ?.kn] on a body that is not null. *)
Lemma get_then_opt_chain body k ks :
  nullish body = false →
  fold_left opt ks (member body k) = default JUndefined (at_path body (k :: ks)).
Proof.
  intros _. rewrite opt_chain. unfold member. cbn [at_path].
  destruct (own body k) as [x|]; cbn; [done|].
  destruct ks; [done|]. by rewrite at_path_undefined.
Qed.

Lemma chat_providers_cases p :
  p ∈ chat_providers → p = "groq" ∨ p = "openai" ∨ p = "deepseek".
Proof. unfold chat_providers. rewrite !elem_of_cons, elem_of_nil. tauto. Qed.

Lemma known_providers_cases p :
  p ∈ known_providers → p ∈ chat_providers ∨ p = "gemini".
Proof.
  unfold known_providers, chat_providers.
  rewrite !elem_of_cons, elem_of_nil. tauto.
Qed.

Lemma printable_text v : printable v = true → ToString v = Return (text_of v).
Proof. unfold printable, text_of. by destruct (ToString v). Qed.

Lemma bind_lift_return {A B} (r : Result A) (a : A) (k : A → M B) w :
  r = Return a → (x ← lift r; k x) w = k a w.
Proof. by intros ->. Qed.

(** Past the three log lines, when the arguments can be interpolated. *)
Ltac pass_logs Hsp Hup :=
  unfold callAI;
  erewrite (bind_lift_return (ToString (JStr _))) by reflexivity; cbv beta;
  erewrite (bind_lift_return (ToString _)) by exact (printable_text _ Hsp);
  cbv beta;
  erewrite (bind_lift_return (ToString _)) by exact (printable_text _ Hup);
  cbv beta.

Ltac run_branch vendor st body Hbody :=
  unfold outcome_of, try_catch, throw, lift, get;
  cbn [strict_eq_str String.eqb Ascii.eqb Bool.eqb];
  unfold mbind, M_bind, mret, M_ret, axios_post, is_2xx;
  match goal with |- context [vendor ?q] =>
    destruct (vendor q) as [|st body]; [reflexivity|]
  end;
  destruct ((200 <=? st) && (st <? 300)); [|reflexivity];
  destruct (nullish body) eqn:Hbody; [reflexivity|].

(** How a chat-style branch runs: one request, then the vendor decides. *)
Lemma callAI_chat_run env vendor p sp up w :
  p ∈ chat_providers →
  printable sp = true →
  printable up = true →
  callAI env vendor (JStr p) sp up w
  = outcome_of vendor (chat_request env p sp up) read_chat w.
Proof.
  intros [->|[->| ->]]%chat_providers_cases Hsp Hup;
    pass_logs Hsp Hup;
    unfold chat_request, chat_endpoint, chat_model, credential_name;
    cbn [String.eqb Ascii.eqb Bool.eqb default from_option id];
    run_branch vendor st body Hbody;
    unfold read_chat, chat_path;
    by rewrite <- (get_then_opt_chain body _ _ Hbody).
Qed.

(** How the gemini branch runs. *)
Lemma callAI_gemini_run env vendor sp up w :
  printable sp = true →
  printable up = true →
  callAI env vendor (JStr "gemini") sp up w
  = outcome_of vendor (gemini_request env sp up) read_gemini w.
Proof.
  intros Hsp Hup. pass_logs Hsp Hup. unfold gemini_request.
  cbn [strict_eq_str String.eqb Ascii.eqb Bool.eqb].
  unfold try_catch, mbind, M_bind, mret, M_ret, lift.
  destruct (truthy sp);
    rewrite ?(printable_text sp Hsp), ?(printable_text up Hup);
    cbv beta iota;
    run_branch vendor st body Hbody;
    unfold read_gemini, gemini_path;
    by rewrite <- (get_then_opt_chain body _ _ Hbody).
Qed.

Lemma at_path_not_nullish body k ks c :
  at_path body (k :: ks) = Some c → nullish body = false.
Proof.
  destruct (nullish body) eqn:E; [|done].
  cbn [at_path]. by rewrite own_nullish.
Qed.

Lemma strict_eq_str_ne v literal :
  v ≠ JStr literal → strict_eq_str v literal = false.
Proof.
  destruct v; try done. cbn. intros H.
  apply String.eqb_neq. congruence.
Qed.

(** [callAI] on a value that is none of the four identifiers, with
    arguments that can be interpolated: the last statement of the function is
    reached and nothing has been sent. *)
Lemma callAI_unsupported env vendor provider sp up w :
  (∀ name, name ∈ known_providers → provider ≠ JStr name) →
  printable provider = true →
  printable sp = true →
  printable up = true →
  callAI env vendor provider sp up w = (Throw (Error "Unsupported provider"), w).
Proof.
  intros H Hp Hsp Hup. unfold callAI.
  erewrite (bind_lift_return (ToString provider))
    by exact (printable_text _ Hp).
  erewrite (bind_lift_return (ToString sp)) by exact (printable_text _ Hsp).
  erewrite (bind_lift_return (ToString up)) by exact (printable_text _ Hup).
  rewrite !strict_eq_str_ne; [done|apply H; unfold known_providers..];
    set_solver.
Qed.

(** When one of the arguments cannot be interpolated, the log lines throw
    before anything else happens, whatever the environment and the vendor. *)
Lemma callAI_unprintable provider sp up w :
  printable provider && printable sp && printable up = false →
  ∃ e, ∀ env vendor, callAI env vendor provider sp up w = (Throw e, w).
Proof.
  unfold printable, callAI, mbind, M_bind, lift.
  destruct (ToString provider) as [t1|e1]; [|by exists e1].
  destruct (ToString sp) as [t2|e2]; [|by exists e2].
  destruct (ToString up) as [t3|e3]; [done|by exists e3].
Qed.

(** Every known provider gets exactly one request per call. *)
Lemma outcome_of_world vendor r read w :
  (outcome_of vendor r read w).2 = w ++ [r].
Proof.
  unfold outcome_of. destruct (vendor r) as [|st body]; [done|].
  destruct (is_2xx st); [|done]. by destruct (nullish body).
Qed.

Lemma truthy_JStr s : truthy (JStr s) = if decide (s = "") then false else true.
Proof.
  cbn. destruct (decide (s = "")) as [->|Hne]; [done|].
  by apply negb_true_iff, String.eqb_neq.
Qed.

Lemma chat_request_messages env p sp up :
  own (data (chat_request env p (JStr sp) (JStr up))) (KName "messages")
  = Some (JArr (chat_messages sp up)).
Proof.
  unfold chat_request, chat_messages, role_message. cbn [data own assoc String.eqb Ascii.eqb Bool.eqb].
  rewrite truthy_JStr. by destruct (decide (sp = "")).
Qed.

Lemma printable_all provider sp up :
  printable provider && printable sp && printable up = true →
  printable provider = true ∧ printable sp = true ∧ printable up = true.
Proof. by intros [[??]%andb_true_iff ?]%andb_true_iff. Qed.

(** [callAI] on a value that is none of the four identifiers throws and
    sends nothing, whatever the prompts. *)
Lemma callAI_unknown_throws env vendor provider sp up w :
  (∀ name, name ∈ known_providers → provider ≠ JStr name) →
  ∃ e, callAI env vendor provider sp up w = (Throw e, w).
Proof.
  intros H.
  destruct (printable provider && printable sp && printable up) eqn:E.
  - apply printable_all in E as (Hp & Hsp & Hup).
    rewrite callAI_unsupported by done. eauto.
  - destruct (callAI_unprintable provider sp up w E) as [e He]. eauto.
Qed.

(** C1. For every provider identifier outside groq, openai, deepseek and
    gemini, [callAI] fails and leaves the list of outbound requests as it
    found it: started from no request, the count of network calls is zero.
    With prompts that can be interpolated, as every string can, the failure
    is the Unsupported provider error. *)
Theorem callAI_unknown_provider_fails_before_network
    env vendor (provider : string) sp up w :
  provider ∉ known_providers →
  (∃ e, callAI env vendor (JStr provider) sp up w = (Throw e, w))
  ∧ length (callAI env vendor (JStr provider) sp up []).2 = 0%nat
  ∧ (printable sp = true → printable up = true →
     callAI env vendor (JStr provider) sp up w
     = (Throw (Error "Unsupported provider"), w)).
Proof.
  intros Hp.
  assert (∀ name, name ∈ known_providers → JStr provider ≠ JStr name) as H
    by (intros name Hin [= ->]; contradiction).
  split_and!.
  - by apply callAI_unknown_throws.
  - by destruct (callAI_unknown_throws env vendor (JStr provider) sp up [] H)
      as [e ->].
  - intros Hsp Hup. by apply callAI_unsupported.
Qed.

Lemma callAI_unknown_provider_witness :
  ("unknown-vendor" ∉ known_providers)
  ∧ callAI ∅ unreachable (JStr "unknown-vendor") (JStr ENHANCE_PROMPT)
      (JStr "We build apps") []
    = (Throw (Error "Unsupported provider"), []).
Proof.
  assert ("unknown-vendor" ∉ known_providers) as H.
  { unfold known_providers. rewrite !elem_of_cons, elem_of_nil.
    intros [?|[?|[?|[?|[]]]]]; discriminate. }
  split; [exact H|].
  exact (proj2 (proj2 (callAI_unknown_provider_fails_before_network
                         ∅ unreachable "unknown-vendor" (JStr ENHANCE_PROMPT)
                         (JStr "We build apps") [] H)) eq_refl eq_refl).
Defined.

(** How [callAI] runs for any of the four providers. *)
Lemma callAI_known_run env vendor p sp up w :
  p ∈ known_providers →
  printable sp = true →
  printable up = true →
  ∃ r read,
    callAI env vendor (JStr p) sp up w = outcome_of vendor r read w
    ∧ (∀ body, at_path body (if decide (p = "gemini") then gemini_path
                             else chat_path) = None →
               read body = if decide (p = "gemini") then JStr ""
                           else JUndefined).
Proof.
  intros [Hp| ->]%known_providers_cases Hsp Hup.
  - exists (chat_request env p sp up), read_chat. split.
    + by apply callAI_chat_run.
    + intros body. destruct (decide (p = "gemini")) as [->|_].
      * apply chat_providers_cases in Hp. by destruct Hp as [?|[?|?]].
      * unfold read_chat. by intros ->.
  - exists (gemini_request env sp up), read_gemini. split.
    + by apply callAI_gemini_run.
    + intros body. cbn [decide]. rewrite decide_True by done.
      unfold read_gemini. by intros ->.
Qed.

(** C2, as the code has it.  For every provider and every prompt pair
    that can be interpolated (every pair of strings can) one request is
    issued; a transport failure and a response outside 200..299 both come back
    to the caller as the axios error itself (with the vendor's status and
    payload when there is a response), never as a value.  A 2xx response whose
    body is not null and holds nothing at the place the text is read from is
    not a failure: the chat-style branches return undefined, the gemini branch
    the empty string. *)
Theorem adapter_propagates_transport_and_status_failures
    env vendor p sp up w :
  p ∈ known_providers →
  printable sp = true →
  printable up = true →
  ∃ r,
    (callAI env vendor (JStr p) sp up w).2 = w ++ [r]
    ∧ (vendor r = NoResponse →
       (callAI env vendor (JStr p) sp up w).1 = Throw (AxiosError None))
    ∧ (∀ st body, vendor r = Response st body → is_2xx st = false →
       (callAI env vendor (JStr p) sp up w).1
         = Throw (AxiosError (Some (st, body))))
    ∧ (∀ st body, vendor r = Response st body → is_2xx st = true →
       nullish body = false →
       at_path body (if decide (p = "gemini") then gemini_path else chat_path)
         = None →
       (callAI env vendor (JStr p) sp up w).1
         = Return (if decide (p = "gemini") then JStr "" else JUndefined)).
Proof.
  intros Hp Hsp Hup.
  destruct (callAI_known_run env vendor p sp up w Hp Hsp Hup)
    as (r & read & -> & Hread).
  exists r. split; [apply outcome_of_world|]. unfold outcome_of.
  split_and!.
  - by intros ->.
  - by intros st body -> ->.
  - intros st body -> -> -> Hnone. cbn [fst]. by rewrite Hread.
Qed.

Lemma adapter_propagates_witness :
  ("groq" ∈ known_providers)
  ∧ printable (JStr ENHANCE_PROMPT) = true
  ∧ printable (JStr "We build apps") = true
  ∧ (callAI ∅ (answers 429 (JObj [("error", JStr "rate limited")]))
       (JStr "groq") (JStr ENHANCE_PROMPT) (JStr "We build apps") []).1
    = Throw (AxiosError (Some (429, JObj [("error", JStr "rate limited")]))).
Proof.
  assert ("groq" ∈ known_providers) as H by (unfold known_providers; set_solver).
  split_and!; [exact H|reflexivity|reflexivity|].
  destruct (adapter_propagates_transport_and_status_failures
              ∅ (answers 429 (JObj [("error", JStr "rate limited")]))
              "groq" (JStr ENHANCE_PROMPT) (JStr "We build apps") [] H
              eq_refl eq_refl)
    as (r & _ & _ & Hstatus & _).
  exact (Hstatus 429 (JObj [("error", JStr "rate limited")]) eq_refl eq_refl).
Defined.

(** C2, as stated, fails: groq answers 200 with a body holding no choices,
    the expected text cannot be extracted, and [callAI] returns a value
    (undefined) instead of failing. *)
Lemma adapter_malformed_body_returns_value :
  at_path (JObj []) chat_path = None
  ∧ ¬ (∃ e, (callAI ∅ (answers 200 (JObj [])) (JStr "groq")
               (JStr ENHANCE_PROMPT) (JStr "We build apps") []).1 = Throw e).
Proof.
  split; [reflexivity|]. intros [e He]. vm_compute in He. discriminate.
Qed.

(** C6. For groq, openai and deepseek and every prompt pair, the request
    handed to axios carries as messages a system turn with systemPrompt
    exactly when systemPrompt is not empty, followed by one user turn with
    userPrompt, and the temperature 0.7; when the vendor answers 2xx with a
    choices array whose first element has a message with a content, that
    content is what [callAI] returns. *)
Theorem chat_adapter_request_and_extraction env vendor p sp up w :
  p ∈ chat_providers →
  ∃ r,
    (callAI env vendor (JStr p) (JStr sp) (JStr up) w).2 = w ++ [r]
    ∧ own (data r) (KName "messages") = Some (JArr (chat_messages sp up))
    ∧ own (data r) (KName "temperature") = Some (JNum "0.7")
    ∧ (∀ st body first rest c,
         vendor r = Response st body → is_2xx st = true →
         own body (KName "choices") = Some (JArr (first :: rest)) →
         at_path first [KName "message"; KName "content"] = Some c →
         (callAI env vendor (JStr p) (JStr sp) (JStr up) w).1 = Return c).
Proof.
  intros Hp. rewrite callAI_chat_run by done.
  exists (chat_request env p (JStr sp) (JStr up)).
  split_and!; [apply outcome_of_world|apply chat_request_messages|done|].
  intros st body first rest c Hv H2xx Hchoices Hcontent.
  unfold outcome_of. rewrite Hv, H2xx.
  assert (at_path body chat_path = Some c) as Hpath.
  { unfold chat_path. cbn [at_path]. rewrite Hchoices. cbn.
    cbn [at_path] in Hcontent. exact Hcontent. }
  rewrite (at_path_not_nullish _ _ _ _ Hpath).
  unfold read_chat. by rewrite Hpath.
Qed.

Lemma chat_adapter_witness :
  ("groq" ∈ chat_providers)
  ∧ (callAI ∅ (answers 200 (chat_body "We build high-quality applications."))
       (JStr "groq") (JStr ENHANCE_PROMPT) (JStr "We build apps") []).1
    = Return (JStr "We build high-quality applications.").
Proof.
  assert ("groq" ∈ chat_providers) as H by (unfold chat_providers; set_solver).
  split; [exact H|].
  destruct (chat_adapter_request_and_extraction
              ∅ (answers 200 (chat_body "We build high-quality applications."))
              "groq" ENHANCE_PROMPT "We build apps" [] H)
    as (r & _ & _ & _ & Hextract).
  exact (Hextract 200 _ _ [] _ eq_refl eq_refl eq_refl eq_refl).
Defined.

(** C7. For gemini the request carries one text: systemPrompt, a blank line
    and userPrompt when both are non-empty, and userPrompt alone when
    systemPrompt is empty.  On a 2xx answer the text returned is the one found
    under candidates, content, parts of the body; a body without it (one that
    only has a choices array, say) yields the empty string. *)
Theorem gemini_adapter_prompt_and_envelope env vendor sp up w :
  ∃ r prompt,
    (callAI env vendor (JStr "gemini") (JStr sp) (JStr up) w).2 = w ++ [r]
    ∧ at_path (data r)
        [KName "contents"; KIndex0; KName "parts"; KIndex0; KName "text"]
      = Some (JStr prompt)
    ∧ (sp ≠ "" → up ≠ "" → prompt = sp +:+ LF +:+ LF +:+ up)
    ∧ (sp = "" → prompt = up)
    ∧ (∀ st body t,
         vendor r = Response st body → is_2xx st = true →
         at_path body gemini_path = Some (JStr t) → t ≠ "" →
         (callAI env vendor (JStr "gemini") (JStr sp) (JStr up) w).1
           = Return (JStr t))
    ∧ (∀ st body,
         vendor r = Response st body → is_2xx st = true →
         nullish body = false → at_path body gemini_path = None →
         (callAI env vendor (JStr "gemini") (JStr sp) (JStr up) w).1
           = Return (JStr "")).
Proof.
  rewrite callAI_gemini_run by done.
  exists (gemini_request env (JStr sp) (JStr up)).
  exists (if decide (sp = "") then up else sp +:+ LF +:+ LF +:+ up).
  split_and!.
  - apply outcome_of_world.
  - unfold gemini_request. cbn [data at_path own assoc head mbind option_bind
                                String.eqb Ascii.eqb Bool.eqb].
    rewrite truthy_JStr. by destruct (decide (sp = "")).
  - intros Hsp _. by rewrite decide_False.
  - intros ->. by rewrite decide_True.
  - intros st body t Hv H2xx Hpath Ht. unfold outcome_of.
    rewrite Hv, H2xx, (at_path_not_nullish _ _ _ _ Hpath).
    unfold read_gemini. rewrite Hpath. cbn [default from_option id].
    rewrite truthy_JStr. by rewrite decide_False.
  - intros st body Hv H2xx Hbody Hpath. unfold outcome_of.
    rewrite Hv, H2xx, Hbody. unfold read_gemini. by rewrite Hpath.
Qed.

Lemma gemini_adapter_witness :
  (callAI ∅ (answers 200 (gemini_body "<html>...</html>"))
     (JStr "gemini") (JStr GENERATE_PROMPT) (JStr "") []).1
    = Return (JStr "<html>...</html>")
  ∧ (callAI ∅ (answers 200 (chat_body "<html>...</html>"))
       (JStr "gemini") (JStr GENERATE_PROMPT) (JStr "") []).1
    = Return (JStr "").
Proof.
  split.
  - destruct (gemini_adapter_prompt_and_envelope
                ∅ (answers 200 (gemini_body "<html>...</html>"))
                GENERATE_PROMPT "" [])
      as (r & prompt & _ & _ & _ & _ & Hextract & _).
    refine (Hextract 200 _ "<html>...</html>" eq_refl eq_refl eq_refl _).
    discriminate.
  - destruct (gemini_adapter_prompt_and_envelope
                ∅ (answers 200 (chat_body "<html>...</html>"))
                GENERATE_PROMPT "" [])
      as (r & prompt & _ & _ & _ & _ & _ & Hnone).
    exact (Hnone 200 _ eq_refl eq_refl eq_refl eq_refl).
Defined.

Lemma on_wire_success field result :
  on_wire (JObj [("success", JBool true); (field, result)])
  = success_payload field result.
Proof. by destruct result. Qed.

(** A handler is its call to [callAI] with the answer mapped: 200 around a
    result, 500 around anything thrown. *)
Lemma text_enhancement_run env vendor req_body w :
  nullish req_body = false →
  text_enhancement env vendor req_body w
  = match callAI env vendor (provider_of env req_body) (JStr ENHANCE_PROMPT)
            (member req_body (KName "text")) w with
    | (Return result, w') =>
        (Return (mkReply 200 (success_payload "enhancedText" result)), w')
    | (Throw _, w') =>
        (Return (mkReply 500 (failure_payload "Failed to enhance text")), w')
    end.
Proof.
  intros Hbody.
  unfold text_enhancement, provider_of, try_catch, lift, get, res_json.
  unfold mbind, M_bind, mret, M_ret. rewrite Hbody.
  destruct (callAI _ _ _ _ _ w) as [[result|e] w']; [|done].
  by rewrite on_wire_success.
Qed.

Lemma generate_html_run env vendor stringify req_body w :
  nullish req_body = false →
  generate_html env vendor stringify req_body w
  = match callAI env vendor (provider_of env req_body)
            (JStr (GENERATE_PROMPT
                   +:+ stringify_text stringify
                         (member req_body (KName "proposal"))))
            (JStr "") w with
    | (Return result, w') =>
        (Return (mkReply 200 (success_payload "html" result)), w')
    | (Throw _, w') =>
        (Return (mkReply 500 (failure_payload "Failed to generate HTML")), w')
    end.
Proof.
  intros Hbody.
  unfold generate_html, provider_of, try_catch, lift, get, res_json.
  unfold mbind, M_bind, mret, M_ret. rewrite Hbody.
  destruct (callAI _ _ _ _ _ w) as [[result|e] w']; [|done].
  by rewrite on_wire_success.
Qed.

(** C5, as the code has it.  For every request body that is not null, each
    route answers, and answers 200 exactly when [callAI] returned and 500
    exactly when it threw.  The 200 body is success: true with the result
    under enhancedText (under html for the other route), whatever the result
    is; when the result is undefined the field is not there.  The 500 body is
    success: false with the fixed error text of the route. *)
Theorem handlers_answer_200_on_return_500_on_throw
    env vendor stringify req_body w :
  nullish req_body = false →
  (∃ reply w',
     text_enhancement env vendor req_body w = (Return reply, w')
     ∧ ((∃ result,
           callAI env vendor (provider_of env req_body) (JStr ENHANCE_PROMPT)
             (member req_body (KName "text")) w = (Return result, w')
           ∧ reply = mkReply 200 (success_payload "enhancedText" result))
        ∨ (∃ e,
             callAI env vendor (provider_of env req_body)
               (JStr ENHANCE_PROMPT) (member req_body (KName "text")) w
               = (Throw e, w')
             ∧ reply = mkReply 500 (failure_payload "Failed to enhance text"))))
  ∧ (∃ reply w',
       generate_html env vendor stringify req_body w = (Return reply, w')
       ∧ ((∃ result,
             callAI env vendor (provider_of env req_body)
               (JStr (GENERATE_PROMPT
                      +:+ stringify_text stringify
                            (member req_body (KName "proposal"))))
               (JStr "") w = (Return result, w')
             ∧ reply = mkReply 200 (success_payload "html" result))
          ∨ (∃ e,
               callAI env vendor (provider_of env req_body)
                 (JStr (GENERATE_PROMPT
                        +:+ stringify_text stringify
                              (member req_body (KName "proposal"))))
                 (JStr "") w = (Throw e, w')
               ∧ reply
                 = mkReply 500 (failure_payload "Failed to generate HTML")))).
Proof.
  intros Hbody. split.
  - rewrite text_enhancement_run by done.
    destruct (callAI _ _ _ _ _ w) as [[result|e] w']; eauto 10.
  - rewrite generate_html_run by done.
    destruct (callAI _ _ _ _ _ w) as [[result|e] w']; eauto 10.
Qed.

Lemma handlers_answer_witness :
  nullish (JObj [("text", JStr "We build apps"); ("provider", JStr "groq")])
    = false
  ∧ ∃ w',
      text_enhancement ∅
        (answers 200 (chat_body "We build high-quality applications."))
        (JObj [("text", JStr "We build apps"); ("provider", JStr "groq")]) []
      = (Return (mkReply 200
                   (JObj [("success", JBool true);
                          ("enhancedText",
                           JStr "We build high-quality applications.")])),
         w').
Proof.
  split; [reflexivity|].
  destruct (handlers_answer_200_on_return_500_on_throw ∅
              (answers 200 (chat_body "We build high-quality applications."))
              (fun _ => "{}")
              (JObj [("text", JStr "We build apps"); ("provider", JStr "groq")])
              [] eq_refl)
    as [(reply & w' & Hrun & [(result & Hcall & ->)|(e & Hcall & ->)]) _];
    vm_compute in Hcall.
  - exists w'. injection Hcall as <- _. exact Hrun.
  - discriminate.
Defined.

(** C5, as stated, fails: the provider call succeeds (groq answers 200 and
    [callAI] returns), and the 200 answer has no enhancedText string. *)
Lemma handler_success_without_enhancedText :
  (callAI ∅ (answers 200 (JObj [])) (JStr "groq") (JStr ENHANCE_PROMPT)
     (JStr "We build apps") []).1 = Return JUndefined
  ∧ ¬ (∃ s w',
         text_enhancement ∅ (answers 200 (JObj []))
           (JObj [("text", JStr "We build apps"); ("provider", JStr "groq")]) []
         = (Return (mkReply 200 (JObj [("success", JBool true);
                                       ("enhancedText", JStr s)])), w')).
Proof.
  split; [reflexivity|]. intros (s & w' & H). vm_compute in H. discriminate.
Qed.

Lemma success_payload_success field result :
  own (success_payload field result) (KName "success") = Some (JBool true).
Proof. done. Qed.

(** C9. The text-enhancement route on an empty text and a known provider
    calls [callAI] with the fixed enhancement prompt and the empty string as
    user prompt, one request goes out, and the handler answers: 200 with
    success: true or 500 with the failure body, and no exception escapes it.
    For the chat-style providers the request has the system turn and a user
    turn with empty content; for gemini the prompt is the fixed text followed
    by the blank line. *)
Theorem enhance_empty_text_is_answered env vendor p w :
  p ∈ known_providers →
  ∃ reply r,
    text_enhancement env vendor
      (JObj [("text", JStr ""); ("provider", JStr p)]) w
      = (Return reply, w ++ [r])
    ∧ (callAI env vendor (JStr p) (JStr ENHANCE_PROMPT) (JStr "") w).2
      = w ++ [r]
    ∧ (p ∈ chat_providers →
       own (data r) (KName "messages")
       = Some (JArr [role_message "system" ENHANCE_PROMPT;
                     role_message "user" ""]))
    ∧ (p = "gemini" →
       at_path (data r)
         [KName "contents"; KIndex0; KName "parts"; KIndex0; KName "text"]
       = Some (JStr (ENHANCE_PROMPT +:+ LF +:+ LF +:+ "")))
    ∧ ((code reply = 200
        ∧ own (payload reply) (KName "success") = Some (JBool true))
       ∨ reply = mkReply 500 (failure_payload "Failed to enhance text")).
Proof.
  intros Hp. rewrite text_enhancement_run by done.
  replace (provider_of env (JObj [("text", JStr ""); ("provider", JStr p)]))
    with (JStr p) by done.
  replace (member (JObj [("text", JStr ""); ("provider", JStr p)])
             (KName "text")) with (JStr "") by done.
  assert (∃ r read,
            callAI env vendor (JStr p) (JStr ENHANCE_PROMPT) (JStr "") w
            = outcome_of vendor r read w
            ∧ (p ∈ chat_providers →
               r = chat_request env p (JStr ENHANCE_PROMPT) (JStr ""))
            ∧ (p = "gemini" →
               r = gemini_request env (JStr ENHANCE_PROMPT) (JStr "")))
    as (r & read & Hrun & Hchat & Hgemini).
  { destruct (known_providers_cases p Hp) as [Hc| ->].
    - exists (chat_request env p (JStr ENHANCE_PROMPT) (JStr "")), read_chat.
      split_and!; [by apply callAI_chat_run|done|].
      intros ->. apply chat_providers_cases in Hc. by destruct Hc as [?|[?|?]].
    - exists (gemini_request env (JStr ENHANCE_PROMPT) (JStr "")), read_gemini.
      split_and!; [by apply callAI_gemini_run| |done].
      intros Hc. apply chat_providers_cases in Hc. by destruct Hc as [?|[?|?]]. }
  rewrite Hrun.
  pose proof (outcome_of_world vendor r read w) as Hw.
  destruct (outcome_of vendor r read w) as [[result|e] w']; cbn [snd] in Hw;
    subst w'; eexists _, r; (split; [reflexivity|]);
    (split; [reflexivity|]);
    (split; [by intros ->%Hchat|]); (split; [by intros ->%Hgemini|]).
  - left. split; [done|apply success_payload_success].
  - by right.
Qed.

Lemma enhance_empty_text_witness :
  ("gemini" ∈ known_providers)
  ∧ ∃ reply r,
      text_enhancement ∅ unreachable
        (JObj [("text", JStr ""); ("provider", JStr "gemini")]) []
      = (Return reply, [] ++ [r])
      ∧ reply = mkReply 500 (failure_payload "Failed to enhance text").
Proof.
  assert ("gemini" ∈ known_providers) as H
    by (unfold known_providers; set_solver).
  split; [exact H|].
  destruct (enhance_empty_text_is_answered ∅ unreachable "gemini" [] H)
    as (reply & r & Hrun & _).
  exists reply, r. split; [exact Hrun|].
  vm_compute in Hrun. by injection Hrun as <- _.
Defined.

(** C10, as the code has it.  For groq, openai and deepseek and a request
    whose text can be interpolated (a string, or no text at all), when the
    vendor answers 2xx with a body that is not null and holds nothing at
    choices[0].message.content, [callAI] returns undefined without throwing
    and the text-enhancement route answers 200 with success: true and no
    enhancedText field. *)
Theorem chat_body_without_content_answers_200 env vendor p req_body w :
  p ∈ chat_providers →
  nullish req_body = false →
  provider_of env req_body = JStr p →
  printable (member req_body (KName "text")) = true →
  ∃ r,
    (callAI env vendor (JStr p) (JStr ENHANCE_PROMPT)
       (member req_body (KName "text")) w).2 = w ++ [r]
    ∧ ∀ st body,
        vendor r = Response st body → is_2xx st = true →
        nullish body = false → at_path body chat_path = None →
        callAI env vendor (JStr p) (JStr ENHANCE_PROMPT)
          (member req_body (KName "text")) w = (Return JUndefined, w ++ [r])
        ∧ text_enhancement env vendor req_body w
          = (Return (mkReply 200 (JObj [("success", JBool true)])), w ++ [r]).
Proof.
  intros Hp Hreq Hprov Htext. rewrite text_enhancement_run by done.
  rewrite Hprov, callAI_chat_run by done.
  eexists. split; [apply outcome_of_world|].
  intros st body Hv H2xx Hbody Hpath. unfold outcome_of.
  rewrite Hv, H2xx, Hbody. unfold read_chat. by rewrite Hpath.
Qed.

Lemma chat_body_without_content_witness :
  ("openai" ∈ chat_providers)
  ∧ printable (JStr "We build apps") = true
  ∧ text_enhancement ∅ (answers 200 (JObj [("choices", JArr [])]))
      (JObj [("text", JStr "We build apps"); ("provider", JStr "openai")]) []
    = (Return (mkReply 200 (JObj [("success", JBool true)])),
       [chat_request ∅ "openai" (JStr ENHANCE_PROMPT) (JStr "We build apps")]).
Proof.
  assert ("openai" ∈ chat_providers) as H by (unfold chat_providers; set_solver).
  split_and!; [exact H|reflexivity|].
  destruct (chat_body_without_content_answers_200 ∅
              (answers 200 (JObj [("choices", JArr [])])) "openai"
              (JObj [("text", JStr "We build apps");
                     ("provider", JStr "openai")]) [] H eq_refl eq_refl
              eq_refl)
    as (r & Hr & Hrun).
  destruct (Hrun 200 _ eq_refl eq_refl eq_refl eq_refl) as [_ Hreply].
  vm_compute in Hr. injection Hr as <-. exact Hreply.
Defined.

(** C10, as stated, fails: groq answers 200 with the body null, which has no
    first choice; reading choices off it throws, [callAI] rethrows and the
    route answers 500. *)
Lemma chat_null_body_answers_500 :
  at_path JNull chat_path = None
  ∧ (callAI ∅ (answers 200 JNull) (JStr "groq") (JStr ENHANCE_PROMPT)
       (JStr "We build apps") []).1 ≠ Return JUndefined
  ∧ (text_enhancement ∅ (answers 200 JNull)
       (JObj [("text", JStr "We build apps"); ("provider", JStr "groq")]) []).1
    = Return (mkReply 500 (failure_payload "Failed to enhance text")).
Proof. split_and!; [reflexivity|vm_compute; discriminate|reflexivity]. Qed.





(** ** The caller client *)

Lemma json_own decoded key :
  McpClient.json decoded key
  = default JNull (decoded ≫= fun v => own v (KName key)).
Proof. destruct decoded as [[]|]; done. Qed.

(** A response that does not hold the field, or holds null there, or is not
    JSON at all, reads as null. *)
Lemma json_without_field decoded key :
  decoded = None
  ∨ (∃ v, decoded = Some v
          ∧ (own v (KName key) = None ∨ own v (KName key) = Some JNull)) →
  McpClient.json decoded key = JNull.
Proof.
  rewrite json_own. intros [->|(v & -> & [H|H])]; cbn; by try rewrite H.
Qed.

(** X28. For every input text, whenever the call to the gateway is
    answered, with whatever status, and the answer holds no enhancedText (the
    field is not there, or is null, or the body is not JSON), [enhanceText]
    returns exactly the input text. *)
Theorem enhanceText_returns_text_without_field
    url dp Http_post strval text provider st decoded :
  Http_post (url +:+ "/mcp/text-enhancement")
    (JObj [("text", JStr text); ("provider", JStr (default dp provider))])
    = McpClient.Answered st decoded →
  decoded = None
  ∨ (∃ v, decoded = Some v
          ∧ (own v (KName "enhancedText") = None
             ∨ own v (KName "enhancedText") = Some JNull)) →
  McpClient.enhanceText url dp Http_post strval text provider
  = McpClient.Returned text.
Proof.
  intros Hpost Hfield. unfold McpClient.enhanceText.
  by rewrite Hpost, json_without_field.
Qed.

Lemma enhanceText_returns_text_witness :
  gateway_answers 500 (failure_payload "Failed to enhance text")
    ("http://localhost:3001" +:+ "/mcp/text-enhancement")
    (JObj [("text", JStr "We build apps");
           ("provider", JStr (default "groq" None))])
    = McpClient.Answered 500
        (Some (failure_payload "Failed to enhance text"))
  ∧ McpClient.enhanceText "http://localhost:3001" "groq"
      (gateway_answers 500 (failure_payload "Failed to enhance text"))
      (fun lit => lit) "We build apps" None
    = McpClient.Returned "We build apps".
Proof.
  split; [reflexivity|].
  apply (enhanceText_returns_text_without_field _ _ _ _ _ _ 500
           (Some (failure_payload "Failed to enhance text")));
    [reflexivity|].
  right. eexists. split; [reflexivity|]. by left.
Defined.

(** C3, where the code departs from it.  The method is to return the
    original text whenever no enhancement is available (its own comment says
    so, and it does so on a 500 answer); but when the call to the gateway
    fails for want of a connection, nothing catches the exception of the HTTP
    client: it leaves [enhanceText] and the input text is not returned. *)
Lemma enhanceText_connection_failure_raises :
  McpClient.enhanceText "http://localhost:3001" "groq" gateway_down
    (fun lit => lit) "We build apps" None
  = McpClient.Raised McpClient.ConnectionException
  ∧ McpClient.enhanceText "http://localhost:3001" "groq" gateway_down
      (fun lit => lit) "We build apps" None
    ≠ McpClient.Returned "We build apps".
Proof. split; [reflexivity|discriminate]. Qed.

(** X29. For every proposal, whenever the call to the gateway is answered,
    with whatever status, and the answer holds no html (the field is not
    there, or is null, or the body is not JSON), [generateHtml] returns the
    empty string. *)
Theorem generateHtml_returns_empty_without_field
    url dp Http_post strval proposalData provider st decoded :
  Http_post (url +:+ "/mcp/generate-html")
    (JObj [("proposal", proposalData);
           ("provider", JStr (default dp provider))])
    = McpClient.Answered st decoded →
  decoded = None
  ∨ (∃ v, decoded = Some v
          ∧ (own v (KName "html") = None ∨ own v (KName "html") = Some JNull)) →
  McpClient.generateHtml url dp Http_post strval proposalData provider
  = McpClient.Returned "".
Proof.
  intros Hpost Hfield. unfold McpClient.generateHtml.
  by rewrite Hpost, json_without_field.
Qed.

Lemma generateHtml_returns_empty_witness :
  gateway_answers 500 (failure_payload "Failed to generate HTML")
    ("http://localhost:3001" +:+ "/mcp/generate-html")
    (JObj [("proposal", web_proposal);
           ("provider", JStr (default "groq" (Some "gemini")))])
    = McpClient.Answered 500
        (Some (failure_payload "Failed to generate HTML"))
  ∧ McpClient.generateHtml "http://localhost:3001" "groq"
      (gateway_answers 500 (failure_payload "Failed to generate HTML"))
      (fun lit => lit) web_proposal (Some "gemini")
    = McpClient.Returned "".
Proof.
  split; [reflexivity|].
  apply (generateHtml_returns_empty_without_field _ _ _ _ _ _ 500
           (Some (failure_payload "Failed to generate HTML")));
    [reflexivity|].
  right. eexists. split; [reflexivity|]. by left.
Defined.

(** C4, where the code departs from it.  The method is to return the
    generated HTML or the empty string (its own comment says so, and it does
    so on a 500 answer); but when the call to the gateway fails for want of a
    connection, nothing catches the exception of the HTTP client and
    [generateHtml] raises instead of returning the empty string. *)
Lemma generateHtml_connection_failure_raises :
  McpClient.generateHtml "http://localhost:3001" "groq" gateway_down
    (fun lit => lit) web_proposal None
  = McpClient.Raised McpClient.ConnectionException
  ∧ McpClient.generateHtml "http://localhost:3001" "groq" gateway_down
      (fun lit => lit) web_proposal None
    ≠ McpClient.Returned "".
Proof. split; [reflexivity|discriminate]. Qed.

(** The status of the answer plays no part: a 500 that carries the field is
    taken at its word, and a 200 without it falls back. *)
Lemma enhanceText_ignores_status :
  McpClient.enhanceText "http://localhost:3001" "groq"
    (gateway_answers 500 (JObj [("enhancedText", JStr "partial")]))
    (fun lit => lit) "We build apps" None
  = McpClient.Returned "partial"
  ∧ McpClient.enhanceText "http://localhost:3001" "groq"
      (gateway_answers 200 (JObj [("success", JBool true)]))
      (fun lit => lit) "We build apps" None
    = McpClient.Returned "We build apps".
Proof. by split. Qed.

(** Both failure bodies of the gateway, and its success body around an
    undefined result, make the client fall back. *)
Lemma client_degrades_on_gateway_replies
    url dp Http_post strval text provider st field message :
  Http_post (url +:+ "/mcp/text-enhancement")
    (JObj [("text", JStr text); ("provider", JStr (default dp provider))])
    = McpClient.Answered st (Some (failure_payload message))
  ∨ Http_post (url +:+ "/mcp/text-enhancement")
      (JObj [("text", JStr text); ("provider", JStr (default dp provider))])
    = McpClient.Answered st (Some (success_payload field JUndefined)) →
  McpClient.enhanceText url dp Http_post strval text provider
  = McpClient.Returned text.
Proof.
  intros [H|H]; unfold McpClient.enhanceText; rewrite H;
    (rewrite json_without_field; [done|]);
    right; eexists; (split; [reflexivity|]); by left.
Qed.

(** * Further properties of the gateway *)

Lemma known_provider_dec (provider : JValue) :
  (∃ p, provider = JStr p ∧ p ∈ known_providers)
  ∨ (∀ name, name ∈ known_providers → provider ≠ JStr name).
Proof.
  destruct provider as [| |b|lit|s|elems|props];
    try (right; intros name _; discriminate).
  destruct (decide (s ∈ known_providers)) as [Hin|Hout].
  - left. eauto.
  - right. intros name Hname [= ->]. contradiction.
Qed.

(** Whatever the provider value, a call appends nothing or one request. *)
Lemma callAI_sends env vendor provider sp up w :
  ∃ sent, (callAI env vendor provider sp up w).2 = w ++ sent
          ∧ (length sent ≤ 1)%nat.
Proof.
  destruct (printable provider && printable sp && printable up) eqn:E.
  - apply printable_all in E as (Hprov & Hsp & Hup).
    destruct (known_provider_dec provider) as [(p & -> & Hp)|Hunknown].
    + destruct (callAI_known_run env vendor p sp up w Hp Hsp Hup)
        as (r & read & -> & _).
      exists [r]. split; [apply outcome_of_world|done].
    + rewrite callAI_unsupported by done. exists []. split; [|cbn; lia].
      by rewrite app_nil_r.
  - destruct (callAI_unprintable provider sp up w E) as [e He].
    rewrite He. exists []. split; [|cbn; lia]. by rewrite app_nil_r.
Qed.

(** An argument that cannot be interpolated stops [callAI] at its log
    lines: the route answers 500 and nothing is sent, even to a vendor that
    would have answered. *)
Lemma route_on_text_with_own_toString :
  ToString (JObj [("toString", JNum "1")])
  = Throw (TypeError "Cannot convert object to primitive value")
  ∧ text_enhancement ∅ (answers 200 (chat_body "Better."))
      (JObj [("text", JObj [("toString", JNum "1")]);
             ("provider", JStr "groq")]) []
    = (Return (mkReply 500 (failure_payload "Failed to enhance text")), []).
Proof. by split. Qed.

(** X1. A call to [callAI] and a run of either route send at most one
    request and leave the requests sent before untouched, for every provider
    value, every prompt and every request body: nothing is retried and no
    second provider is tried. *)
Theorem at_most_one_request_per_call
    env vendor stringify provider sp up req_body w :
  (∃ sent, (callAI env vendor provider sp up w).2 = w ++ sent
           ∧ (length sent ≤ 1)%nat)
  ∧ (∃ sent, (text_enhancement env vendor req_body w).2 = w ++ sent
             ∧ (length sent ≤ 1)%nat)
  ∧ (∃ sent, (generate_html env vendor stringify req_body w).2 = w ++ sent
             ∧ (length sent ≤ 1)%nat).
Proof.
  split_and!; [apply callAI_sends| |].
  - destruct (nullish req_body) eqn:Hbody.
    + exists []. unfold text_enhancement, lift, get, mbind, M_bind.
      rewrite Hbody. cbn. split; [by rewrite app_nil_r|lia].
    + rewrite text_enhancement_run by done.
      destruct (callAI_sends env vendor (provider_of env req_body)
                  (JStr ENHANCE_PROMPT) (member req_body (KName "text")) w)
        as (sent & Hsent & Hlen).
      exists sent. split; [|done].
      by destruct (callAI _ _ _ _ _ w) as [[result|e] w'].
  - destruct (nullish req_body) eqn:Hbody.
    + exists []. unfold generate_html, lift, get, mbind, M_bind.
      rewrite Hbody. cbn. split; [by rewrite app_nil_r|lia].
    + rewrite generate_html_run by done.
      destruct (callAI_sends env vendor (provider_of env req_body)
                  (JStr (GENERATE_PROMPT
                         +:+ stringify_text stringify
                               (member req_body (KName "proposal"))))
                  (JStr "") w)
        as (sent & Hsent & Hlen).
      exists sent. split; [|done].
      by destruct (callAI _ _ _ _ _ w) as [[result|e] w'].
Qed.

Lemma env_text_insert_ne (env : Env) k v name :
  k ≠ name → env_text (<[k:=v]> env) name = env_text env name.
Proof. intros H. unfold env_text. by rewrite lookup_insert_ne. Qed.

(** X2. Setting an environment variable other than the credential of the
    provider called changes nothing about the call: each request carries the
    credential of its own provider and no other. *)
Theorem callAI_reads_only_its_own_credential
    (env : Env) vendor (provider : string) sp up w k v :
  credential_name provider ≠ Some k →
  callAI (<[k:=v]> env) vendor (JStr provider) sp up w
  = callAI env vendor (JStr provider) sp up w.
Proof.
  intros Hk.
  destruct (printable (JStr provider) && printable sp && printable up) eqn:E;
    [|destruct (callAI_unprintable _ sp up w E) as [e He]; by rewrite !He].
  apply printable_all in E as (_ & Hsp & Hup).
  destruct (decide (provider ∈ known_providers)) as [Hp|Hp].
  - destruct (known_providers_cases provider Hp) as [Hc| ->].
    + rewrite !callAI_chat_run by done. f_equal.
      unfold chat_request. do 4 f_equal.
      destruct (credential_name provider) as [name|] eqn:Hname.
      * cbn [default from_option id]. apply env_text_insert_ne. congruence.
      * apply chat_providers_cases in Hc.
        destruct Hc as [->|[->| ->]]; discriminate.
    + rewrite !callAI_gemini_run by done. f_equal. unfold gemini_request.
      f_equal. f_equal. apply env_text_insert_ne. intros ->. by apply Hk.
  - assert (∀ name, name ∈ known_providers → JStr provider ≠ JStr name) as H
      by (intros name Hin [= ->]; contradiction).
    by rewrite !callAI_unsupported.
Qed.

Lemma callAI_reads_only_its_own_credential_witness :
  credential_name "groq" ≠ Some "CHATGPT_API_KEY"
  ∧ callAI (<["CHATGPT_API_KEY":="sk-other"]> (∅ : Env)) unreachable
      (JStr "groq") (JStr ENHANCE_PROMPT) (JStr "We build apps") []
    = callAI ∅ unreachable (JStr "groq") (JStr ENHANCE_PROMPT)
        (JStr "We build apps") [].
Proof.
  assert (credential_name "groq" ≠ Some "CHATGPT_API_KEY") as H
    by discriminate.
  split; [exact H|].
  exact (callAI_reads_only_its_own_credential ∅ unreachable "groq"
           (JStr ENHANCE_PROMPT) (JStr "We build apps") []
           "CHATGPT_API_KEY" "sk-other" H).
Defined.

(** X3. Where the credential travels, for prompts that can be interpolated
    (strings can): a chat-style request carries it in the Authorization header
    as a bearer token; the gemini request has no Authorization header and
    carries it in the URL, after key=. *)
Theorem credential_in_header_or_in_url
    (env : Env) vendor p name key sp up w :
  p ∈ known_providers →
  credential_name p = Some name →
  env !! name = Some key →
  printable sp = true →
  printable up = true →
  ∃ r,
    (callAI env vendor (JStr p) sp up w).2 = w ++ [r]
    ∧ (p ∈ chat_providers →
       header "Authorization" (headers r) = Some ("Bearer " +:+ key)
       ∧ url r = chat_endpoint p)
    ∧ (p = "gemini" →
       header "Authorization" (headers r) = None
       ∧ url r = "https://generativelanguage.googleapis.com/v1beta/models/gemini-pro:generateContent?key=" +:+ key).
Proof.
  intros Hp Hname Hkey Hsp Hup.
  destruct (known_providers_cases p Hp) as [Hc| ->].
  - rewrite callAI_chat_run by done. eexists.
    split_and!; [apply outcome_of_world| |].
    + intros _. unfold chat_request.
      cbn [headers url header find fst snd fmap option_fmap option_map
             String.eqb Ascii.eqb Bool.eqb].
      rewrite Hname. cbn [default from_option id]. unfold env_text.
      by rewrite Hkey.
    + intros ->. apply chat_providers_cases in Hc. by destruct Hc as [?|[?|?]].
  - rewrite callAI_gemini_run by done. eexists.
    split_and!; [apply outcome_of_world| |].
    + intros Hc. apply chat_providers_cases in Hc. by destruct Hc as [?|[?|?]].
    + intros _. unfold gemini_request, env_text. cbn [url headers].
      injection Hname as <-. by rewrite Hkey.
Qed.

Lemma credential_in_header_or_in_url_witness :
  ("gemini" ∈ known_providers)
  ∧ credential_name "gemini" = Some "GEMINI_API_KEY"
  ∧ (<["GEMINI_API_KEY":="AIza-secret"]> (∅ : Env)) !! "GEMINI_API_KEY"
    = Some "AIza-secret"
  ∧ printable (JStr GENERATE_PROMPT) = true
  ∧ printable (JStr "") = true
  ∧ ∃ r,
      (callAI (<["GEMINI_API_KEY":="AIza-secret"]> (∅ : Env)) unreachable
         (JStr "gemini") (JStr GENERATE_PROMPT) (JStr "") []).2 = [] ++ [r]
      ∧ header "Authorization" (headers r) = None.
Proof.
  assert ("gemini" ∈ known_providers) as H
    by (unfold known_providers; set_solver).
  assert ((<["GEMINI_API_KEY":="AIza-secret"]> (∅ : Env)) !! "GEMINI_API_KEY"
          = Some "AIza-secret") as Hkey by apply lookup_insert_eq.
  split_and!; [exact H|reflexivity|exact Hkey|reflexivity|reflexivity|].
  destruct (credential_in_header_or_in_url
              (<["GEMINI_API_KEY":="AIza-secret"]> (∅ : Env)) unreachable
              "gemini" "GEMINI_API_KEY" "AIza-secret" (JStr GENERATE_PROMPT)
              (JStr "") [] H eq_refl Hkey eq_refl eq_refl)
    as (r & Hr & _ & Hgemini).
  exists r. split; [exact Hr|]. exact (proj1 (Hgemini eq_refl)).
Defined.

Lemma handlers_on_unsupported env vendor stringify req_body w :
  nullish req_body = false →
  (∀ name, name ∈ known_providers → provider_of env req_body ≠ JStr name) →
  text_enhancement env vendor req_body w
  = (Return (mkReply 500 (failure_payload "Failed to enhance text")), w)
  ∧ generate_html env vendor stringify req_body w
    = (Return (mkReply 500 (failure_payload "Failed to generate HTML")), w).
Proof.
  intros Hbody Hunknown.
  rewrite text_enhancement_run, generate_html_run by done.
  destruct (callAI_unknown_throws env vendor (provider_of env req_body)
              (JStr ENHANCE_PROMPT) (member req_body (KName "text")) w
              Hunknown) as [e ->].
  destruct (callAI_unknown_throws env vendor (provider_of env req_body)
              (JStr (GENERATE_PROMPT
                     +:+ stringify_text stringify
                           (member req_body (KName "proposal"))))
              (JStr "") w Hunknown) as [e' ->].
  done.
Qed.

(** X4. The default provider stands in for an absent provider only.  A
    request body that names a provider which is not one of the four strings
    (null, a number, a name in another case) is answered 500 by both routes
    with nothing sent, whatever the configured default. *)
Theorem named_unknown_provider_answers_500_unsent
    env vendor stringify req_body v w :
  own req_body (KName "provider") = Some v →
  v ≠ JUndefined →
  (∀ name, name ∈ known_providers → v ≠ JStr name) →
  text_enhancement env vendor req_body w
  = (Return (mkReply 500 (failure_payload "Failed to enhance text")), w)
  ∧ generate_html env vendor stringify req_body w
    = (Return (mkReply 500 (failure_payload "Failed to generate HTML")), w).
Proof.
  intros Hown Hdef Hunknown.
  assert (nullish req_body = false) as Hbody.
  { destruct (nullish req_body) eqn:E; [|done].
    by rewrite own_nullish in Hown. }
  apply handlers_on_unsupported; [done|].
  unfold provider_of, member. rewrite Hown. cbn [default from_option id].
  by destruct v.
Qed.

Lemma named_unknown_provider_witness :
  own (JObj [("text", JStr "We build apps"); ("provider", JNull)])
    (KName "provider") = Some JNull
  ∧ text_enhancement (<["AI_PROVIDER":="openai"]> (∅ : Env))
      (answers 200 (chat_body "We build high-quality applications."))
      (JObj [("text", JStr "We build apps"); ("provider", JNull)]) []
    = (Return (mkReply 500 (failure_payload "Failed to enhance text")), []).
Proof.
  split; [reflexivity|].
  refine (proj1 (named_unknown_provider_answers_500_unsent
                   (<["AI_PROVIDER":="openai"]> (∅ : Env))
                   (answers 200 (chat_body "We build high-quality applications."))
                   (fun _ => "{}")
                   (JObj [("text", JStr "We build apps"); ("provider", JNull)])
                   JNull [] eq_refl _ _)); [discriminate|].
  intros name _. discriminate.
Defined.



Lemma defaultProvider_configured (env : Env) :
  defaultProvider env
  = JStr (match env !! "AI_PROVIDER" with
          | Some s => if decide (s = "") then "groq" else s
          | None => "groq"
          end).
Proof.
  unfold defaultProvider, env_or. destruct (env !! "AI_PROVIDER") as [s|]; [|done].
  rewrite truthy_JStr. by destruct (decide (s = "")).
Qed.

(** X6. A request that names no provider is answered exactly as the same
    request naming the configured default, and the configured default is
    AI_PROVIDER when it is set and not empty, groq otherwise. *)
Theorem absent_provider_means_configured_default
    (env : Env) vendor stringify props w :
  assoc "provider" props = None →
  let configured :=
    match env !! "AI_PROVIDER" with
    | Some s => if decide (s = "") then "groq" else s
    | None => "groq"
    end in
  text_enhancement env vendor (JObj props) w
  = text_enhancement env vendor (JObj (("provider", JStr configured) :: props)) w
  ∧ generate_html env vendor stringify (JObj props) w
    = generate_html env vendor stringify
        (JObj (("provider", JStr configured) :: props)) w.
Proof.
  intros Hnone configured.
  rewrite !text_enhancement_run, !generate_html_run by done.
  unfold provider_of, member. cbn [own assoc String.eqb Ascii.eqb Bool.eqb].
  rewrite Hnone. cbn [default from_option id or_default].
  by rewrite defaultProvider_configured.
Qed.

Lemma absent_provider_witness :
  assoc "provider" [("text", JStr "We build apps")] = None
  ∧ text_enhancement (<["AI_PROVIDER":=""]> (∅ : Env)) unreachable
      (JObj [("text", JStr "We build apps")]) []
    = text_enhancement (<["AI_PROVIDER":=""]> (∅ : Env)) unreachable
        (JObj [("provider", JStr "groq"); ("text", JStr "We build apps")]) [].
Proof.
  split; [reflexivity|].
  exact (proj1 (absent_provider_means_configured_default
                  (<["AI_PROVIDER":=""]> (∅ : Env)) unreachable
                  (fun _ => "{}") [("text", JStr "We build apps")] []
                  eq_refl)).
Defined.

Lemma read_gemini_defined body : read_gemini body ≠ JUndefined.
Proof.
  unfold read_gemini.
  destruct (default JUndefined (at_path body gemini_path)); cbn; try done.
  by destruct b.
  all: by match goal with |- context [if ?c then _ else _] => destruct c end.
Qed.

Lemma gemini_returns_defined env vendor sp up w result w' :
  callAI env vendor (JStr "gemini") sp up w = (Return result, w') →
  result ≠ JUndefined.
Proof.
  destruct (printable (JStr "gemini") && printable sp && printable up) eqn:E;
    [|destruct (callAI_unprintable _ sp up w E) as [e He]; by rewrite He].
  apply printable_all in E as (_ & Hsp & Hup).
  rewrite callAI_gemini_run by done. unfold outcome_of.
  destruct (vendor _) as [|st body]; [done|].
  destruct (is_2xx st); [|done]. destruct (nullish body); [done|].
  intros [= <- _]. apply read_gemini_defined.
Qed.

(** X7. With gemini a 200 answer always carries its field: the gemini
    branch never returns undefined (a missing text becomes the empty string),
    so enhancedText, or html, is present in every success body. *)
Theorem gemini_success_carries_the_field
    env vendor stringify req_body w reply w' :
  nullish req_body = false →
  provider_of env req_body = JStr "gemini" →
  (text_enhancement env vendor req_body w = (Return reply, w') →
   code reply = 200 →
   ∃ v, own (payload reply) (KName "enhancedText") = Some v)
  ∧ (generate_html env vendor stringify req_body w = (Return reply, w') →
     code reply = 200 →
     ∃ v, own (payload reply) (KName "html") = Some v).
Proof.
  intros Hbody Hprov.
  rewrite text_enhancement_run, generate_html_run, Hprov by done. split.
  - destruct (callAI _ _ _ _ _ w) as [[result|e] w''] eqn:Hcall;
      intros [= <- _]; [|done]. intros _.
    apply gemini_returns_defined in Hcall.
    exists (on_wire result). by destruct result.
  - destruct (callAI _ _ _ _ _ w) as [[result|e] w''] eqn:Hcall;
      intros [= <- _]; [|done]. intros _.
    apply gemini_returns_defined in Hcall.
    exists (on_wire result). by destruct result.
Qed.

Lemma gemini_success_carries_the_field_witness :
  nullish (JObj [("text", JStr "We build apps"); ("provider", JStr "gemini")])
    = false
  ∧ ∃ v, own (JObj [("success", JBool true); ("enhancedText", JStr "")])
           (KName "enhancedText") = Some v.
Proof.
  split; [reflexivity|].
  refine (proj1 (gemini_success_carries_the_field ∅ (answers 200 (JObj []))
                   (fun _ => "{}")
                   (JObj [("text", JStr "We build apps");
                          ("provider", JStr "gemini")]) []
                   (mkReply 200 (JObj [("success", JBool true);
                                       ("enhancedText", JStr "")]))
                   [gemini_request ∅ (JStr ENHANCE_PROMPT)
                      (JStr "We build apps")]
                   eq_refl eq_refl) _ eq_refl).
  reflexivity.
Defined.

(** X8. The text-enhancement route does not check that a text was given.
    For a body without text and a known provider the request still goes out:
    to a chat-style provider with a user turn whose content is undefined, to
    gemini with the word undefined after the fixed prompt. *)
Theorem missing_text_is_sent_as_undefined env vendor req_body p w :
  p ∈ known_providers →
  nullish req_body = false →
  own req_body (KName "text") = None →
  provider_of env req_body = JStr p →
  ∃ r,
    (text_enhancement env vendor req_body w).2 = w ++ [r]
    ∧ (p ∈ chat_providers →
       own (data r) (KName "messages")
       = Some (JArr [role_message "system" ENHANCE_PROMPT;
                     JObj [("role", JStr "user"); ("content", JUndefined)]]))
    ∧ (p = "gemini" →
       at_path (data r)
         [KName "contents"; KIndex0; KName "parts"; KIndex0; KName "text"]
       = Some (JStr (ENHANCE_PROMPT +:+ LF +:+ LF +:+ "undefined"))).
Proof.
  intros Hp Hbody Htext Hprov. rewrite text_enhancement_run by done.
  unfold member. rewrite Htext, Hprov. cbn [default from_option id].
  destruct (known_providers_cases p Hp) as [Hc| ->].
  - rewrite callAI_chat_run by done.
    exists (chat_request env p (JStr ENHANCE_PROMPT) JUndefined). split_and!.
    + pose proof (outcome_of_world vendor
                    (chat_request env p (JStr ENHANCE_PROMPT) JUndefined)
                    read_chat w) as Hw.
      by destruct (outcome_of _ _ _ w) as [[result|e] w'].
    + done.
    + intros ->. apply chat_providers_cases in Hc. by destruct Hc as [?|[?|?]].
  - rewrite callAI_gemini_run by done.
    exists (gemini_request env (JStr ENHANCE_PROMPT) JUndefined). split_and!.
    + pose proof (outcome_of_world vendor
                    (gemini_request env (JStr ENHANCE_PROMPT) JUndefined)
                    read_gemini w) as Hw.
      by destruct (outcome_of _ _ _ w) as [[result|e] w'].
    + intros Hc. apply chat_providers_cases in Hc. by destruct Hc as [?|[?|?]].
    + done.
Qed.

Lemma missing_text_witness :
  ("deepseek" ∈ known_providers)
  ∧ ∃ r,
      (text_enhancement ∅ unreachable (JObj [("provider", JStr "deepseek")])
         []).2 = [] ++ [r]
      ∧ own (data r) (KName "messages")
        = Some (JArr [role_message "system" ENHANCE_PROMPT;
                      JObj [("role", JStr "user"); ("content", JUndefined)]]).
Proof.
  assert ("deepseek" ∈ chat_providers) as Hc
    by (unfold chat_providers; set_solver).
  assert ("deepseek" ∈ known_providers) as Hk
    by (unfold known_providers; rewrite !elem_of_cons; auto).
  split; [exact Hk|].
  destruct (missing_text_is_sent_as_undefined ∅ unreachable
              (JObj [("provider", JStr "deepseek")]) "deepseek" []
              Hk eq_refl eq_refl eq_refl) as (r & Hr & Hchat & _).
  exists r. split; [exact Hr|exact (Hchat Hc)].
Defined.

(** X9. The generate-html route puts the proposal into the system prompt
    only, as its JSON text after the fixed instruction (the word undefined
    when the body has no proposal), and leaves the user prompt empty: a
    chat-style provider gets that system turn and an empty user turn, gemini
    gets the same text followed by a blank line. *)
Theorem generate_html_prompt_holds_the_proposal
    env vendor stringify req_body p w :
  p ∈ known_providers →
  nullish req_body = false →
  provider_of env req_body = JStr p →
  let instruction :=
    GENERATE_PROMPT
    +:+ match own req_body (KName "proposal") with
        | None | Some JUndefined => "undefined"
        | Some proposal => stringify proposal
        end in
  ∃ r,
    (generate_html env vendor stringify req_body w).2 = w ++ [r]
    ∧ (p ∈ chat_providers →
       own (data r) (KName "messages")
       = Some (JArr [role_message "system" instruction;
                     role_message "user" ""]))
    ∧ (p = "gemini" →
       at_path (data r)
         [KName "contents"; KIndex0; KName "parts"; KIndex0; KName "text"]
       = Some (JStr (instruction +:+ LF +:+ LF +:+ ""))).
Proof.
  intros Hp Hbody Hprov instruction.
  rewrite generate_html_run by done. rewrite Hprov.
  assert (GENERATE_PROMPT
          +:+ stringify_text stringify (member req_body (KName "proposal"))
          = instruction) as ->.
  { unfold instruction, member, stringify_text.
    by destruct (own req_body (KName "proposal")) as [[]|]. }
  assert (truthy (JStr instruction) = true) as Htruthy by done.
  destruct (known_providers_cases p Hp) as [Hc| ->].
  - rewrite callAI_chat_run by done.
    exists (chat_request env p (JStr instruction) (JStr "")). split_and!.
    + pose proof (outcome_of_world vendor
                    (chat_request env p (JStr instruction) (JStr ""))
                    read_chat w) as Hw.
      by destruct (outcome_of _ _ _ w) as [[result|e] w'].
    + intros _. unfold chat_request.
      cbn [data own assoc String.eqb Ascii.eqb Bool.eqb]. by rewrite Htruthy.
    + intros ->. apply chat_providers_cases in Hc. by destruct Hc as [?|[?|?]].
  - rewrite callAI_gemini_run by done.
    exists (gemini_request env (JStr instruction) (JStr "")). split_and!.
    + pose proof (outcome_of_world vendor
                    (gemini_request env (JStr instruction) (JStr ""))
                    read_gemini w) as Hw.
      by destruct (outcome_of _ _ _ w) as [[result|e] w'].
    + intros Hc. apply chat_providers_cases in Hc. by destruct Hc as [?|[?|?]].
    + intros _. unfold gemini_request.
      cbn [data at_path own assoc head mbind option_bind String.eqb Ascii.eqb
             Bool.eqb]. by rewrite Htruthy.
Qed.

Lemma generate_html_prompt_witness :
  ("openai" ∈ known_providers)
  ∧ ∃ r,
      (generate_html ∅ unreachable (fun _ => "{}")
         (JObj [("provider", JStr "openai")]) []).2 = [] ++ [r]
      ∧ own (data r) (KName "messages")
        = Some (JArr [role_message "system" (GENERATE_PROMPT +:+ "undefined");
                      role_message "user" ""]).
Proof.
  assert ("openai" ∈ chat_providers) as Hc
    by (unfold chat_providers; set_solver).
  assert ("openai" ∈ known_providers) as Hk
    by (unfold known_providers; rewrite !elem_of_cons; auto).
  split; [exact Hk|].
  destruct (generate_html_prompt_holds_the_proposal ∅ unreachable
              (fun _ => "{}") (JObj [("provider", JStr "openai")]) "openai" []
              Hk eq_refl eq_refl) as (r & Hr & Hchat & _).
  exists r. split; [exact Hr|exact (Hchat Hc)].
Defined.





(** * Further properties of the caller client *)

(** X11. [enhanceText] and [generateHtml] raise in exactly two cases: the
    call got no response (the ConnectionException of the HTTP client), or the
    answer holds an array or an object where the string is expected (the
    TypeError of the declared return type).  In every other case a string is
    returned. *)
Theorem client_raises_in_exactly_two_cases
    url dp post strval text data provider :
  let enhance := McpClient.enhanceText url dp post strval text provider in
  let answer_e :=
    post (url +:+ "/mcp/text-enhancement")
      (JObj [("text", JStr text); ("provider", JStr (default dp provider))]) in
  let generate := McpClient.generateHtml url dp post strval data provider in
  let answer_g :=
    post (url +:+ "/mcp/generate-html")
      (JObj [("proposal", data); ("provider", JStr (default dp provider))]) in
  (enhance = McpClient.Raised McpClient.ConnectionException
   ↔ answer_e = McpClient.ConnectionFailed)
  ∧ (enhance = McpClient.Raised McpClient.PhpTypeError
     ↔ ∃ st decoded, answer_e = McpClient.Answered st decoded
                     ∧ is_array (McpClient.json decoded "enhancedText") = true)
  ∧ (generate = McpClient.Raised McpClient.ConnectionException
     ↔ answer_g = McpClient.ConnectionFailed)
  ∧ (generate = McpClient.Raised McpClient.PhpTypeError
     ↔ ∃ st decoded, answer_g = McpClient.Answered st decoded
                     ∧ is_array (McpClient.json decoded "html") = true).
Proof.
  cbn zeta. unfold McpClient.enhanceText, McpClient.generateHtml.
  split_and!.
  - destruct (post _ _) as [|st decoded]; [done|]. split; [|done].
    by destruct (McpClient.json decoded "enhancedText") as [| |[]| | | |].
  - destruct (post _ _) as [|st decoded].
    + split; [done|]. by intros (? & ? & ? & _).
    + split.
      * intros H. exists st, decoded. split; [done|].
        by destruct (McpClient.json decoded "enhancedText") as [| |[]| | | |].
      * intros (st' & decoded' & [= <- <-] & H).
        by destruct (McpClient.json decoded "enhancedText") as [| |[]| | | |].
  - destruct (post _ _) as [|st decoded]; [done|]. split; [|done].
    by destruct (McpClient.json decoded "html") as [| |[]| | | |].
  - destruct (post _ _) as [|st decoded].
    + split; [done|]. by intros (? & ? & ? & _).
    + split.
      * intros H. exists st, decoded. split; [done|].
        by destruct (McpClient.json decoded "html") as [| |[]| | | |].
      * intros (st' & decoded' & [= <- <-] & H).
        by destruct (McpClient.json decoded "html") as [| |[]| | | |].
Qed.

(** X12. When the answer holds a string under the field, that string is
    what the client returns, whatever the status of the answer and even when
    the string is empty: the fallback is for an absent or null field only. *)
Theorem client_returns_the_string_field
    url dp post strval text data provider st answered s :
  (post (url +:+ "/mcp/text-enhancement")
     (JObj [("text", JStr text); ("provider", JStr (default dp provider))])
   = McpClient.Answered st (Some answered) →
   own answered (KName "enhancedText") = Some (JStr s) →
   McpClient.enhanceText url dp post strval text provider
   = McpClient.Returned s)
  ∧ (post (url +:+ "/mcp/generate-html")
       (JObj [("proposal", data); ("provider", JStr (default dp provider))])
     = McpClient.Answered st (Some answered) →
     own answered (KName "html") = Some (JStr s) →
     McpClient.generateHtml url dp post strval data provider
     = McpClient.Returned s).
Proof.
  split; intros Hpost Hfield;
    unfold McpClient.enhanceText, McpClient.generateHtml;
    rewrite Hpost, json_own; cbn [mbind option_bind]; by rewrite Hfield.
Qed.

Lemma client_returns_the_string_field_witness :
  gateway_answers 200 (JObj [("success", JBool true); ("enhancedText", JStr "")])
    ("http://localhost:3001" +:+ "/mcp/text-enhancement")
    (JObj [("text", JStr "We build apps");
           ("provider", JStr (default "groq" (Some "gemini")))])
  = McpClient.Answered 200
      (Some (JObj [("success", JBool true); ("enhancedText", JStr "")]))
  ∧ McpClient.enhanceText "http://localhost:3001" "groq"
      (gateway_answers 200
         (JObj [("success", JBool true); ("enhancedText", JStr "")]))
      (fun lit => lit) "We build apps" (Some "gemini")
    = McpClient.Returned "".
Proof.
  split; [reflexivity|].
  exact (proj1 (client_returns_the_string_field "http://localhost:3001" "groq"
                  (gateway_answers 200
                     (JObj [("success", JBool true);
                            ("enhancedText", JStr "")]))
                  (fun lit => lit) "We build apps" web_proposal
                  (Some "gemini") 200 _ "")
           eq_refl eq_refl).
Defined.

(** * Properties of the controller *)

Lemma find_row_app_new {Carbon} (rows : list (BusinessProposalController.BusinessProposal (Carbon := Carbon)))
    next row :
  Forall (fun r => (BusinessProposalController.id r < BusinessProposalController.id row)%nat) rows →
  BusinessProposalController.find_row (BusinessProposalController.id row) (BusinessProposalController.mkTable (rows ++ [row]) next) = Some row.
Proof.
  unfold BusinessProposalController.find_row. cbn [BusinessProposalController.rows].
  induction 1 as [|r rs Hr _ IH]; cbn [app find].
  - by rewrite Nat.eqb_refl.
  - destruct (Nat.eqb_spec (BusinessProposalController.id r) (BusinessProposalController.id row)) as [Heq|_]; [lia|done].
Qed.

Lemma find_row_app_old {Carbon} (rows : list (BusinessProposalController.BusinessProposal (Carbon := Carbon)))
    next next' row key found :
  BusinessProposalController.find_row key (BusinessProposalController.mkTable rows next) = Some found →
  BusinessProposalController.find_row key (BusinessProposalController.mkTable (rows ++ [row]) next') = Some found.
Proof.
  unfold BusinessProposalController.find_row. cbn [BusinessProposalController.rows].
  induction rows as [|r rs IH]; cbn [app find]; [done|].
  by destruct (Nat.eqb (BusinessProposalController.id r) key).
Qed.

Section ControllerProperties.

Variable url dp : string.
Variable post : string → JValue → McpClient.HttpOutcome.
Variable strval : string → string.
Variable validate : JValue → option (string * string).
Context {Carbon : Type}.
Variable format_Ymd : Carbon → string.

Local Abbreviation createBusinessProposal :=
  (BusinessProposalController.createBusinessProposal url dp post strval validate).
Local Abbreviation showBusinessProposal :=
  (BusinessProposalController.showBusinessProposal url dp post strval format_Ymd).
Local Abbreviation enhance_call text :=
  (post (url +:+ "/mcp/text-enhancement")
     (JObj [("text", JStr text); ("provider", JStr dp)])).

(** How [createBusinessProposal] runs once the request is valid. *)
Lemma create_run request (now : Carbon) db text t :
  validate request = Some (text, t) →
  createBusinessProposal request now db
  = match McpClient.enhanceText url dp post strval text None with
    | McpClient.Raised e => (BusinessProposalController.Raises (BusinessProposalController.FromClient e), db)
    | McpClient.Returned enhanced =>
        let row :=
          BusinessProposalController.mkProposal (BusinessProposalController.next_id db) t text enhanced "draft" now now in
        (BusinessProposalController.Responds (BusinessProposalController.JsonResponse 201 row),
         BusinessProposalController.mkTable (BusinessProposalController.rows db ++ [row]) (S (BusinessProposalController.next_id db)))
    end.
Proof.
  intros Hv. unfold BusinessProposalController.createBusinessProposal. rewrite Hv.
  by destruct (McpClient.enhanceText _ _ _ _ _ _).
Qed.

(** What a run of [createBusinessProposal] can be. *)
Lemma create_cases request (now : Carbon) db :
  (∃ e, createBusinessProposal request now db = (BusinessProposalController.Raises e, db))
  ∨ (∃ text t enhanced,
       validate request = Some (text, t)
       ∧ createBusinessProposal request now db
         = (BusinessProposalController.Responds
              (BusinessProposalController.JsonResponse 201
                 (BusinessProposalController.mkProposal (BusinessProposalController.next_id db) t text enhanced "draft"
                    now now)),
            BusinessProposalController.mkTable
              (BusinessProposalController.rows db
               ++ [BusinessProposalController.mkProposal (BusinessProposalController.next_id db) t text enhanced "draft"
                     now now])
              (S (BusinessProposalController.next_id db)))).
Proof.
  destruct (validate request) as [[text t]|] eqn:Hv.
  - rewrite (create_run _ _ _ _ _ Hv).
    destruct (McpClient.enhanceText _ _ _ _ _ _) as [enhanced|e];
      [right|left]; eauto 10.
  - left. unfold BusinessProposalController.createBusinessProposal. rewrite Hv. eauto.
Qed.

(** X13. [createBusinessProposal] keeps the keys of the table unique.  On
    a table whose keys are distinct and below the next auto-increment value,
    the table it leaves has distinct keys below its next value again, the
    next value is never lowered, and a proposal it returns has for key the
    old next value, which no row had before. *)
Theorem create_keeps_keys_unique request (now : Carbon) db :
  BusinessProposalController.keys_below_next db →
  NoDup (BusinessProposalController.id
           <$> BusinessProposalController.rows db) →
  BusinessProposalController.keys_below_next
    (createBusinessProposal request now db).2
  ∧ NoDup (BusinessProposalController.id
             <$> BusinessProposalController.rows
                   (createBusinessProposal request now db).2)
  ∧ (BusinessProposalController.next_id db
     ≤ BusinessProposalController.next_id
         (createBusinessProposal request now db).2)%nat
  ∧ (∀ code proposal,
       (createBusinessProposal request now db).1
       = BusinessProposalController.Responds
           (BusinessProposalController.JsonResponse code proposal) →
       BusinessProposalController.id proposal
       = BusinessProposalController.next_id db
       ∧ BusinessProposalController.id proposal
         ∉ (BusinessProposalController.id
              <$> BusinessProposalController.rows db)).
Proof.
  intros Hdb Hnodup.
  assert (BusinessProposalController.next_id db
          ∉ (BusinessProposalController.id
               <$> BusinessProposalController.rows db)) as Hfresh.
  { intros (r & Heq & Hin)%list_elem_of_fmap.
    unfold BusinessProposalController.keys_below_next in Hdb.
    rewrite Forall_forall in Hdb. specialize (Hdb r Hin). lia. }
  destruct (create_cases request now db)
    as [(e & ->)|(text & t & enhanced & _ & ->)].
  - split_and!; [done|done|done|]. by intros code proposal.
  - cbn [fst snd]. split_and!.
    + unfold BusinessProposalController.keys_below_next in *.
      cbn [BusinessProposalController.rows BusinessProposalController.next_id].
      apply Forall_app. split.
      * eapply Forall_impl; [exact Hdb|]. cbn. intros r Hr. lia.
      * constructor; [cbn; lia|constructor].
    + cbn [BusinessProposalController.rows]. rewrite fmap_app.
      apply NoDup_app. split_and!; [done| |apply NoDup_singleton].
      intros k Hk. cbn. rewrite list_elem_of_singleton. intros ->.
      by apply Hfresh.
    + cbn. lia.
    + intros code proposal [= <- <-]. by split.
Qed.

(** X14. Storing and finding compose: when [createBusinessProposal]
    answers 201 with a proposal, that proposal is the row found under its key
    in the new table, and every row found before is still found unchanged. *)
Theorem created_proposal_is_found request (now : Carbon) db code proposal db' :
  BusinessProposalController.keys_below_next db →
  createBusinessProposal request now db
  = (BusinessProposalController.Responds (BusinessProposalController.JsonResponse code proposal), db') →
  code = 201
  ∧ BusinessProposalController.find_row (BusinessProposalController.id proposal) db' = Some proposal
  ∧ (∀ key found, BusinessProposalController.find_row key db = Some found →
                  BusinessProposalController.find_row key db' = Some found).
Proof.
  intros Hdb.
  destruct (create_cases request now db)
    as [(e & ->)|(text & t & enhanced & _ & ->)]; [done|].
  intros [= <- <- <-]. split_and!; [done| |].
  - apply find_row_app_new. exact Hdb.
  - intros key found. destruct db as [rows next]. apply find_row_app_old.
Qed.

(** X15. A request that cannot be enhanced is stored all the same: when
    the request is valid and the gateway's answer holds no enhancedText,
    [createBusinessProposal] answers 201 and appends one row whose enhanced
    text is the original text, with the status draft. *)
Theorem create_stores_original_text_on_fallback
    request (now : Carbon) db text t st decoded :
  validate request = Some (text, t) →
  enhance_call text = McpClient.Answered st decoded →
  McpClient.json decoded "enhancedText" = JNull →
  createBusinessProposal request now db
  = (BusinessProposalController.Responds
       (BusinessProposalController.JsonResponse 201
          (BusinessProposalController.mkProposal (BusinessProposalController.next_id db) t text text "draft" now now)),
     BusinessProposalController.mkTable
       (BusinessProposalController.rows db
        ++ [BusinessProposalController.mkProposal (BusinessProposalController.next_id db) t text text "draft" now now])
       (S (BusinessProposalController.next_id db))).
Proof.
  intros Hv Hpost Hjson. rewrite (create_run _ _ _ _ _ Hv).
  unfold McpClient.enhanceText. cbn [default from_option id].
  by rewrite Hpost, Hjson.
Qed.

(** X16. Nothing is stored unless a proposal is returned: whenever
    [createBusinessProposal] raises (validation, no connection to the gateway,
    an answer of the wrong type), the table is left as it was; and an invalid
    request is turned down without regard to the gateway. *)
Theorem create_failure_stores_nothing request (now : Carbon) db :
  (∀ e, (createBusinessProposal request now db).1 = BusinessProposalController.Raises e →
        (createBusinessProposal request now db).2 = db)
  ∧ (validate request = None →
     createBusinessProposal request now db
     = (BusinessProposalController.Raises BusinessProposalController.ValidationException, db))
  ∧ (∀ text t, validate request = Some (text, t) →
               enhance_call text = McpClient.ConnectionFailed →
               createBusinessProposal request now db
               = (BusinessProposalController.Raises (BusinessProposalController.FromClient McpClient.ConnectionException),
                  db)).
Proof.
  split_and!.
  - intros e.
    by destruct (create_cases request now db)
      as [(e' & ->)|(text & t & enhanced & _ & ->)].
  - intros Hv. unfold BusinessProposalController.createBusinessProposal. by rewrite Hv.
  - intros text t Hv Hpost. rewrite (create_run _ _ _ _ _ Hv).
    unfold McpClient.enhanceText. cbn [default from_option id].
    by rewrite Hpost.
Qed.

(** X17. A key that was never handed out is not found: on a table whose
    keys are below the next auto-increment value, [showBusinessProposal] on
    that value or a larger one raises ModelNotFoundException, whatever the
    gateway would answer. *)
Theorem show_unissued_key_not_found
    key (db : BusinessProposalController.Table (Carbon := Carbon)) :
  BusinessProposalController.keys_below_next db →
  (BusinessProposalController.next_id db ≤ key)%nat →
  showBusinessProposal key db
  = BusinessProposalController.Raises
      BusinessProposalController.ModelNotFoundException.
Proof.
  intros Hdb Hkey.
  unfold BusinessProposalController.showBusinessProposal.
  replace (BusinessProposalController.find_row key db) with
    (@None (BusinessProposalController.BusinessProposal (Carbon := Carbon)));
    [done|].
  symmetry. unfold BusinessProposalController.find_row.
  unfold BusinessProposalController.keys_below_next in Hdb.
  induction Hdb as [|r rs Hr _ IH]; [done|]. cbn [find].
  destruct (Nat.eqb_spec (BusinessProposalController.id r) key); [lia|done].
Qed.

(** X18. A preview that the gateway cannot produce is an empty page, not
    an error: for a stored proposal, when the gateway's answer holds no html,
    [showBusinessProposal] answers 200 with an empty body; when it holds a
    string, that string is the body.  The gateway is sent the title, the
    enhanced text as content and the creation day. *)
Theorem show_answers_html_or_empty_page
    key (db : BusinessProposalController.Table (Carbon := Carbon)) proposal st decoded :
  BusinessProposalController.find_row key db = Some proposal →
  post (url +:+ "/mcp/generate-html")
    (JObj [("proposal",
            JObj [("title", JStr (BusinessProposalController.title proposal));
                  ("content", JStr (BusinessProposalController.enhanced_text proposal));
                  ("created_at",
                   JStr (format_Ymd (BusinessProposalController.created_at proposal)))]);
           ("provider", JStr dp)])
  = McpClient.Answered st decoded →
  (McpClient.json decoded "html" = JNull →
   showBusinessProposal key db = BusinessProposalController.Responds (BusinessProposalController.HtmlResponse 200 ""))
  ∧ (∀ html, McpClient.json decoded "html" = JStr html →
             showBusinessProposal key db
             = BusinessProposalController.Responds (BusinessProposalController.HtmlResponse 200 html)).
Proof.
  intros Hfind Hpost. unfold BusinessProposalController.showBusinessProposal, McpClient.generateHtml.
  rewrite Hfind. cbn [default from_option id]. rewrite Hpost.
  split; [intros ->|intros html ->]; done.
Qed.

(** X19. Creating and previewing compose: after a 201 from
    [createBusinessProposal] on a table with its keys below the next value,
    [showBusinessProposal] on the key returned asks the gateway for a page
    holding the title, the stored enhanced text and the creation day, and
    answers 200 with the html of the answer. *)
Theorem created_proposal_can_be_previewed
    request (now : Carbon) db code proposal db' st decoded html :
  BusinessProposalController.keys_below_next db →
  createBusinessProposal request now db
  = (BusinessProposalController.Responds
       (BusinessProposalController.JsonResponse code proposal), db') →
  post (url +:+ "/mcp/generate-html")
    (JObj [("proposal",
            JObj [("title", JStr (BusinessProposalController.title proposal));
                  ("content",
                   JStr (BusinessProposalController.enhanced_text proposal));
                  ("created_at", JStr (format_Ymd now))]);
           ("provider", JStr dp)])
  = McpClient.Answered st decoded →
  McpClient.json decoded "html" = JStr html →
  showBusinessProposal (BusinessProposalController.id proposal) db'
  = BusinessProposalController.Responds
      (BusinessProposalController.HtmlResponse 200 html).
Proof.
  intros Hdb.
  destruct (create_cases request now db)
    as [(e & ->)|(text & t & enhanced & _ & ->)]; [done|].
  intros [= <- <- <-] Hpost Hjson.
  unfold BusinessProposalController.showBusinessProposal.
  rewrite find_row_app_new by exact Hdb.
  unfold McpClient.generateHtml. cbn [default from_option id].
  cbn [BusinessProposalController.title
         BusinessProposalController.enhanced_text
         BusinessProposalController.created_at] in *.
  by rewrite Hpost, Hjson.
Qed.

(** X20. The controller always asks for the provider configured in the
    client: two gateways that answer alike to requests naming that provider
    give the same outcome and the same table for every request, whatever
    provider the request itself names. *)
Theorem controller_asks_the_configured_provider_only
    (post' : string → JValue → McpClient.HttpOutcome)
    request (now : Carbon) key db :
  (∀ route payload,
     own payload (KName "provider") = Some (JStr dp) →
     post' route payload = post route payload) →
  BusinessProposalController.createBusinessProposal url dp post' strval
    validate request now db
  = createBusinessProposal request now db
  ∧ BusinessProposalController.showBusinessProposal url dp post' strval
      format_Ymd key db
    = showBusinessProposal key db.
Proof.
  intros Hsame. split.
  - unfold BusinessProposalController.createBusinessProposal.
    destruct (validate request) as [[text t]|]; [|done].
    unfold McpClient.enhanceText. by rewrite Hsame.
  - unfold BusinessProposalController.showBusinessProposal.
    destruct (BusinessProposalController.find_row key db); [|done].
    unfold McpClient.generateHtml. by rewrite Hsame.
Qed.

End ControllerProperties.

Lemma create_keeps_keys_unique_witness :
  BusinessProposalController.keys_below_next empty_table
  ∧ NoDup (BusinessProposalController.id
             <$> BusinessProposalController.rows empty_table)
  ∧ NoDup (BusinessProposalController.id
             <$> BusinessProposalController.rows
                   (BusinessProposalController.createBusinessProposal
                      "http://localhost:3001" "deepseek"
                      (gateway_answers 500
                         (failure_payload "Failed to enhance text"))
                      (fun lit => lit) validate_text_title web_request
                      "2024-01-01" empty_table).2).
Proof.
  assert (BusinessProposalController.keys_below_next empty_table) as H
    by constructor.
  assert (NoDup (BusinessProposalController.id
                   <$> BusinessProposalController.rows empty_table)) as Hn
    by constructor.
  split_and!; [exact H|exact Hn|].
  exact (proj1 (proj2 (create_keeps_keys_unique "http://localhost:3001"
                         "deepseek"
                         (gateway_answers 500
                            (failure_payload "Failed to enhance text"))
                         (fun lit => lit) validate_text_title web_request
                         "2024-01-01" empty_table H Hn))).
Defined.

Lemma create_stores_original_text_witness :
  validate_text_title web_request = Some ("We build apps", "Web Proposal")
  ∧ BusinessProposalController.createBusinessProposal
      "http://localhost:3001" "deepseek"
      (gateway_answers 500 (failure_payload "Failed to enhance text"))
      (fun lit => lit) validate_text_title web_request "2024-01-01"
      empty_table
    = (BusinessProposalController.Responds
         (BusinessProposalController.JsonResponse 201
            stored_proposal),
       one_row_table).
Proof.
  split; [reflexivity|].
  exact (create_stores_original_text_on_fallback "http://localhost:3001"
           "deepseek"
           (gateway_answers 500 (failure_payload "Failed to enhance text"))
           (fun lit => lit) validate_text_title web_request "2024-01-01"
           empty_table "We build apps" "Web Proposal" 500
           (Some (failure_payload "Failed to enhance text"))
           eq_refl eq_refl eq_refl).
Defined.

Lemma created_proposal_is_found_witness :
  BusinessProposalController.keys_below_next empty_table
  ∧ BusinessProposalController.find_row 1
      one_row_table
    = Some stored_proposal.
Proof.
  assert (BusinessProposalController.keys_below_next empty_table) as H
    by constructor.
  split; [exact H|].
  exact (proj1 (proj2 (created_proposal_is_found "http://localhost:3001"
                         "deepseek"
                         (gateway_answers 500
                            (failure_payload "Failed to enhance text"))
                         (fun lit => lit) validate_text_title web_request
                         "2024-01-01" empty_table 201 _ _ H eq_refl))).
Defined.

Lemma create_failure_stores_nothing_witness :
  validate_text_title (JObj [("title", JStr "Web Proposal")]) = None
  ∧ BusinessProposalController.createBusinessProposal
      "http://localhost:3001" "deepseek" gateway_down (fun lit => lit)
      validate_text_title (JObj [("title", JStr "Web Proposal")])
      "2024-01-01" empty_table
    = (BusinessProposalController.Raises
         BusinessProposalController.ValidationException, empty_table).
Proof.
  split; [reflexivity|].
  exact (proj1 (proj2 (create_failure_stores_nothing "http://localhost:3001"
                         "deepseek" gateway_down (fun lit => lit)
                         validate_text_title
                         (JObj [("title", JStr "Web Proposal")])
                         "2024-01-01" empty_table)) eq_refl).
Defined.

Lemma show_unissued_key_witness :
  BusinessProposalController.keys_below_next empty_table
  ∧ (BusinessProposalController.next_id empty_table ≤ 7)%nat
  ∧ BusinessProposalController.showBusinessProposal "http://localhost:3001"
      "deepseek" (gateway_answers 200 (JObj [("html", JStr "<p>hi</p>")]))
      (fun lit => lit) (fun day : string => day) 7 empty_table
    = BusinessProposalController.Raises
        BusinessProposalController.ModelNotFoundException.
Proof.
  assert (BusinessProposalController.keys_below_next empty_table) as H
    by constructor.
  assert (BusinessProposalController.next_id empty_table ≤ 7)%nat as Hle
    by (cbn; lia).
  split_and!; [exact H|exact Hle|].
  exact (show_unissued_key_not_found "http://localhost:3001" "deepseek"
           (gateway_answers 200 (JObj [("html", JStr "<p>hi</p>")]))
           (fun lit => lit) (fun day : string => day) 7 empty_table H Hle).
Defined.

Lemma show_answers_empty_page_witness :
  BusinessProposalController.find_row 1
    one_row_table
  = Some stored_proposal
  ∧ BusinessProposalController.showBusinessProposal "http://localhost:3001"
      "deepseek"
      (gateway_answers 500 (failure_payload "Failed to generate HTML"))
      (fun lit => lit) (fun day : string => day) 1
      one_row_table
    = BusinessProposalController.Responds
        (BusinessProposalController.HtmlResponse 200 "").
Proof.
  split; [reflexivity|].
  exact (proj1 (show_answers_html_or_empty_page "http://localhost:3001"
                  "deepseek"
                  (gateway_answers 500
                     (failure_payload "Failed to generate HTML"))
                  (fun lit => lit) (fun day : string => day) 1 one_row_table
                  stored_proposal 500
                  (Some (failure_payload "Failed to generate HTML"))
                  eq_refl eq_refl) eq_refl).
Defined.

Lemma created_proposal_can_be_previewed_witness :
  BusinessProposalController.keys_below_next empty_table
  ∧ BusinessProposalController.showBusinessProposal "http://localhost:3001"
      "deepseek"
      (gateway_answers 200
         (JObj [("success", JBool true); ("html", JStr "<html>...</html>");
                ("enhancedText", JStr "We build high-quality applications.")]))
      (fun lit => lit) (fun day : string => day) 1
      (BusinessProposalController.mkTable
         [BusinessProposalController.mkProposal 1 "Web Proposal"
            "We build apps" "We build high-quality applications." "draft"
            "2024-01-01" "2024-01-01"] 2)
    = BusinessProposalController.Responds
        (BusinessProposalController.HtmlResponse 200 "<html>...</html>").
Proof.
  assert (BusinessProposalController.keys_below_next empty_table) as H
    by constructor.
  split; [exact H|].
  exact (created_proposal_can_be_previewed "http://localhost:3001" "deepseek"
           (gateway_answers 200
              (JObj [("success", JBool true);
                     ("html", JStr "<html>...</html>");
                     ("enhancedText",
                      JStr "We build high-quality applications.")]))
           (fun lit => lit) validate_text_title (fun day : string => day)
           web_request "2024-01-01" empty_table 201 _ _ 200 _
           "<html>...</html>" H eq_refl eq_refl eq_refl).
Defined.

Lemma controller_asks_the_configured_provider_witness :
  (∀ route payload,
     own payload (KName "provider") = Some (JStr "deepseek") →
     deepseek_only 200 (JObj [("enhancedText", JStr "Better.")]) route payload
     = gateway_answers 200 (JObj [("enhancedText", JStr "Better.")])
         route payload)
  ∧ BusinessProposalController.createBusinessProposal
      "http://localhost:3001" "deepseek"
      (deepseek_only 200 (JObj [("enhancedText", JStr "Better.")]))
      (fun lit => lit) validate_text_title web_request "2024-01-01"
      empty_table
    = BusinessProposalController.createBusinessProposal
        "http://localhost:3001" "deepseek"
        (gateway_answers 200 (JObj [("enhancedText", JStr "Better.")]))
        (fun lit => lit) validate_text_title web_request "2024-01-01"
        empty_table.
Proof.
  assert (∀ route payload,
            own payload (KName "provider") = Some (JStr "deepseek") →
            deepseek_only 200 (JObj [("enhancedText", JStr "Better.")])
              route payload
            = gateway_answers 200 (JObj [("enhancedText", JStr "Better.")])
                route payload) as H.
  { intros route payload Hp. unfold deepseek_only. by rewrite Hp. }
  split; [exact H|].
  exact (proj1 (controller_asks_the_configured_provider_only
                  "http://localhost:3001" "deepseek"
                  (gateway_answers 200
                     (JObj [("enhancedText", JStr "Better.")]))
                  (fun lit => lit) validate_text_title
                  (fun day : string => day)
                  (deepseek_only 200 (JObj [("enhancedText", JStr "Better.")]))
                  web_request "2024-01-01" 1 empty_table H)).
Defined.

(** * Properties of the form component *)

Section FormProperties.

Variable env : Env.
Variable backend : BusinessProposalForm.ApiCall → Transport.

Local Abbreviation handleSubmit := (BusinessProposalForm.handleSubmit env backend).
Local Abbreviation handlePreview := (BusinessProposalForm.handlePreview env backend).
Local Abbreviation axios := (BusinessProposalForm.axios backend).
Local Abbreviation base := (env_text env "REACT_APP_LARAVEL_API_BASE_URL").

Local Abbreviation submit_call s :=
  (BusinessProposalForm.POST (base +:+ "/api/business-proposals")
     (JObj [("title", JStr (BusinessProposalForm.title
                              (BusinessProposalForm.formData s)));
            ("text", JStr (BusinessProposalForm.text
                             (BusinessProposalForm.formData s)));
            ("provider", JStr (BusinessProposalForm.provider
                                 (BusinessProposalForm.formData s)))])).

Local Abbreviation preview_call s id_text :=
  (BusinessProposalForm.GET
     (base +:+ "/api/business-proposals/" +:+ id_text +:+ "/preview")
     (JObj [("provider", JStr (BusinessProposalForm.provider
                                 (BusinessProposalForm.formData s)))])).

(** X21. [handleSubmit] makes one POST with the title, text and provider of
    the form, shows the loading state while it waits, and always ends with
    loading off, the form and the preview untouched.  A 2xx answer becomes the
    proposal; any failure is swallowed and the proposal stays what it was. *)
Theorem handleSubmit_settles s :
  ∃ settled,
    handleSubmit s
    = BusinessProposalForm.Awaited (BusinessProposalForm.setLoading true s)
        (submit_call s) settled
    ∧ BusinessProposalForm.loading settled = false
    ∧ BusinessProposalForm.formData settled = BusinessProposalForm.formData s
    ∧ BusinessProposalForm.htmlPreview settled
      = BusinessProposalForm.htmlPreview s
    ∧ (∀ response_data, axios (submit_call s) = Return response_data →
         BusinessProposalForm.proposal settled = response_data)
    ∧ (∀ error, axios (submit_call s) = Throw error →
         BusinessProposalForm.proposal settled
         = BusinessProposalForm.proposal s).
Proof.
  unfold BusinessProposalForm.handleSubmit. cbn zeta.
  destruct (axios (submit_call s)) as [response_data|error];
    eexists; (split; [reflexivity|]); split_and!; try done;
    by intros ? [= <-].
Qed.

(** X22. [handlePreview] does nothing at all while there is no proposal
    (null, or any falsy value).  With a proposal whose id can be interpolated
    it makes one GET for the preview of that id with the provider of the form,
    and always ends with loading off, the form and the proposal untouched; a
    2xx answer becomes the preview, any failure is swallowed and the preview
    stays.  With a proposal whose id cannot be interpolated the exception is
    caught before any call and only loading is switched off. *)
Theorem handlePreview_settles s :
  (truthy (BusinessProposalForm.proposal s) = false →
   handlePreview s = BusinessProposalForm.Skipped)
  ∧ (truthy (BusinessProposalForm.proposal s) = true →
     ∀ id_text,
       ToString (member (BusinessProposalForm.proposal s) (KName "id"))
       = Return id_text →
       ∃ settled,
         handlePreview s
         = BusinessProposalForm.Awaited
             (BusinessProposalForm.setLoading true s)
             (preview_call s id_text) settled
         ∧ BusinessProposalForm.loading settled = false
         ∧ BusinessProposalForm.formData settled
           = BusinessProposalForm.formData s
         ∧ BusinessProposalForm.proposal settled
           = BusinessProposalForm.proposal s
         ∧ (∀ response_data,
              axios (preview_call s id_text) = Return response_data →
              BusinessProposalForm.htmlPreview settled = response_data)
         ∧ (∀ error, axios (preview_call s id_text) = Throw error →
              BusinessProposalForm.htmlPreview settled
              = BusinessProposalForm.htmlPreview s))
  ∧ (truthy (BusinessProposalForm.proposal s) = true →
     printable (member (BusinessProposalForm.proposal s) (KName "id"))
     = false →
     handlePreview s
     = BusinessProposalForm.Caught (BusinessProposalForm.setLoading false s)).
Proof.
  unfold BusinessProposalForm.handlePreview. cbn zeta.
  split_and!; intros ->; cbn [negb]; [done| |].
  - intros id_text ->.
    destruct (axios (preview_call s id_text)) as [response_data|error];
      eexists; (split; [reflexivity|]); split_and!; try done;
      by intros ? [= <-].
  - unfold printable. by destruct (ToString _).
Qed.

(** X23. Submitting and previewing compose.  Started without a proposal,
    a submit that fails leaves nothing to preview: the preview handler then
    makes no call.  A submit answered 2xx with a truthy body whose id can be
    interpolated makes the preview handler ask for the preview of that id. *)
Theorem preview_follows_the_last_submit s :
  (truthy (BusinessProposalForm.proposal s) = false →
   ∀ error, axios (submit_call s) = Throw error →
   handlePreview (BusinessProposalForm.after (handleSubmit s) s)
   = BusinessProposalForm.Skipped)
  ∧ (∀ created id_text,
     axios (submit_call s) = Return created →
     truthy created = true →
     ToString (member created (KName "id")) = Return id_text →
     ∃ pending settled,
       handlePreview (BusinessProposalForm.after (handleSubmit s) s)
       = BusinessProposalForm.Awaited pending
           (BusinessProposalForm.GET
              (base +:+ "/api/business-proposals/" +:+ id_text
               +:+ "/preview")
              (JObj [("provider",
                      JStr (BusinessProposalForm.provider
                              (BusinessProposalForm.formData s)))]))
           settled
       ∧ BusinessProposalForm.proposal settled = created).
Proof.
  split.
  - intros Hnone error Hfail.
    unfold BusinessProposalForm.handleSubmit, BusinessProposalForm.after.
    cbn zeta. rewrite Hfail.
    unfold BusinessProposalForm.handlePreview. cbn. by rewrite Hnone.
  - intros created id_text Hok Htruthy Hid.
    unfold BusinessProposalForm.handleSubmit, BusinessProposalForm.after.
    cbn zeta. rewrite Hok.
    unfold BusinessProposalForm.handlePreview. cbn zeta.
    cbn [BusinessProposalForm.proposal BusinessProposalForm.setProposal
           BusinessProposalForm.setLoading BusinessProposalForm.formData].
    rewrite Htruthy, Hid. cbn [negb].
    destruct (axios (BusinessProposalForm.GET _ _)) as [response_data|error];
      eexists _, _; (split; [reflexivity|done]).
Qed.

End FormProperties.

Lemma handlePreview_settles_witness :
  truthy (BusinessProposalForm.proposal BusinessProposalForm.initial) = false
  ∧ BusinessProposalForm.handlePreview ∅ (fun _ => NoResponse)
      BusinessProposalForm.initial
    = BusinessProposalForm.Skipped
  ∧ truthy (JObj [("id", JObj [("toString", JNum "1")])]) = true
  ∧ printable (member (JObj [("id", JObj [("toString", JNum "1")])])
                 (KName "id")) = false
  ∧ BusinessProposalForm.handlePreview ∅ (fun _ => Response 200 (JStr "<p/>"))
      (BusinessProposalForm.setProposal
         (JObj [("id", JObj [("toString", JNum "1")])])
         BusinessProposalForm.initial)
    = BusinessProposalForm.Caught
        (BusinessProposalForm.setProposal
           (JObj [("id", JObj [("toString", JNum "1")])])
           BusinessProposalForm.initial).
Proof.
  split_and!; [reflexivity| |reflexivity|reflexivity|].
  - exact (proj1 (handlePreview_settles ∅ (fun _ => NoResponse)
                    BusinessProposalForm.initial) eq_refl).
  - exact (proj2 (proj2 (handlePreview_settles ∅
                           (fun _ => Response 200 (JStr "<p/>"))
                           (BusinessProposalForm.setProposal
                              (JObj [("id", JObj [("toString", JNum "1")])])
                              BusinessProposalForm.initial)))
             eq_refl eq_refl).
Defined.

Lemma preview_follows_the_last_submit_witness :
  truthy (BusinessProposalForm.proposal BusinessProposalForm.initial) = false
  ∧ BusinessProposalForm.handlePreview ∅ (fun _ => Response 500 JNull)
      (BusinessProposalForm.after
         (BusinessProposalForm.handleSubmit ∅ (fun _ => Response 500 JNull)
            BusinessProposalForm.initial)
         BusinessProposalForm.initial)
    = BusinessProposalForm.Skipped.
Proof.
  split; [reflexivity|].
  exact (proj1 (preview_follows_the_last_submit ∅ (fun _ => Response 500 JNull)
                  BusinessProposalForm.initial)
           eq_refl (AxiosError (Some (500, JNull))) eq_refl).
Defined.

(** * The client in front of the gateway

    In the statements below the client's request is answered by the
    text-enhancement route: whatever reply the route sends for the body is the
    answer the client gets. *)

Lemma enhanceText_through_gateway
    env vendor w url dp post strval text provider :
  (∀ reply w',
     text_enhancement env vendor
       (JObj [("text", JStr text); ("provider", JStr (default dp provider))]) w
     = (Return reply, w') →
     post (url +:+ "/mcp/text-enhancement")
       (JObj [("text", JStr text); ("provider", JStr (default dp provider))])
     = McpClient.Answered (code reply) (Some (payload reply))) →
  McpClient.enhanceText url dp post strval text provider
  = match callAI env vendor (JStr (default dp provider)) (JStr ENHANCE_PROMPT)
            (JStr text) w with
    | (Return result, _) =>
        McpClient.return_string strval
          (McpClient.coalesce
             (McpClient.json (Some (success_payload "enhancedText" result))
                "enhancedText")
             (JStr text))
    | (Throw _, _) => McpClient.Returned text
    end.
Proof.
  intros Hserved. unfold McpClient.enhanceText.
  pose proof (text_enhancement_run env vendor
                (JObj [("text", JStr text);
                       ("provider", JStr (default dp provider))]) w eq_refl)
    as Hrun.
  replace (provider_of env
             (JObj [("text", JStr text);
                    ("provider", JStr (default dp provider))]))
    with (JStr (default dp provider)) in Hrun by done.
  replace (member (JObj [("text", JStr text);
                         ("provider", JStr (default dp provider))])
             (KName "text")) with (JStr text) in Hrun by done.
  destruct (callAI _ _ _ _ _ w) as [[result|e] w'];
    by rewrite (Hserved _ _ Hrun).
Qed.

(** X24. Every failure of the provider call degrades to the original text
    at the client: when [callAI] throws at the gateway (no response from the
    vendor, a status outside 200..299, an unsupported provider name), the
    route answers 500 and [enhanceText] returns the text it was given. *)
Theorem client_keeps_text_when_provider_call_throws
    env vendor w url dp post strval text provider e w' :
  (∀ reply w'',
     text_enhancement env vendor
       (JObj [("text", JStr text); ("provider", JStr (default dp provider))]) w
     = (Return reply, w'') →
     post (url +:+ "/mcp/text-enhancement")
       (JObj [("text", JStr text); ("provider", JStr (default dp provider))])
     = McpClient.Answered (code reply) (Some (payload reply))) →
  callAI env vendor (JStr (default dp provider)) (JStr ENHANCE_PROMPT)
    (JStr text) w = (Throw e, w') →
  McpClient.enhanceText url dp post strval text provider
  = McpClient.Returned text.
Proof.
  intros Hserved Hthrow.
  by rewrite (enhanceText_through_gateway env vendor w), Hthrow.
Qed.

Lemma client_keeps_text_witness :
  callAI ∅ unreachable (JStr (default "deepseek" None)) (JStr ENHANCE_PROMPT)
    (JStr "We build apps") []
  = (Throw (AxiosError None),
     [chat_request ∅ "deepseek" (JStr ENHANCE_PROMPT) (JStr "We build apps")])
  ∧ McpClient.enhanceText "http://localhost:3001" "deepseek"
      (gateway_answers 500 (failure_payload "Failed to enhance text"))
      (fun lit => lit) "We build apps" None
    = McpClient.Returned "We build apps".
Proof.
  split; [reflexivity|].
  refine (client_keeps_text_when_provider_call_throws ∅ unreachable []
            "http://localhost:3001" "deepseek"
            (gateway_answers 500 (failure_payload "Failed to enhance text"))
            (fun lit => lit) "We build apps" None (AxiosError None)
            [chat_request ∅ "deepseek" (JStr ENHANCE_PROMPT)
               (JStr "We build apps")] _ eq_refl).
  intros reply w'' Hrun. vm_compute in Hrun. by injection Hrun as <- _.
Defined.

(** X25. A 2xx answer without the expected text ends differently by
    provider.  Behind a chat-style provider the route answers 200 without the
    field and [enhanceText] returns the original text; behind gemini the route
    answers 200 with an empty enhancedText and [enhanceText] returns the empty
    string, not the original text. *)
Theorem missing_content_text_or_empty_by_provider
    env vendor w url dp post strval text provider st body :
  (∀ reply w',
     text_enhancement env vendor
       (JObj [("text", JStr text); ("provider", JStr (default dp provider))]) w
     = (Return reply, w') →
     post (url +:+ "/mcp/text-enhancement")
       (JObj [("text", JStr text); ("provider", JStr (default dp provider))])
     = McpClient.Answered (code reply) (Some (payload reply))) →
  is_2xx st = true →
  nullish body = false →
  (default dp provider ∈ chat_providers →
   vendor (chat_request env (default dp provider) (JStr ENHANCE_PROMPT)
             (JStr text)) = Response st body →
   at_path body chat_path = None →
   McpClient.enhanceText url dp post strval text provider
   = McpClient.Returned text)
  ∧ (default dp provider = "gemini" →
     vendor (gemini_request env (JStr ENHANCE_PROMPT) (JStr text))
     = Response st body →
     at_path body gemini_path = None →
     McpClient.enhanceText url dp post strval text provider
     = McpClient.Returned "").
Proof.
  intros Hserved H2xx Hbody.
  rewrite (enhanceText_through_gateway env vendor w) by done. split.
  - intros Hp Hv Hpath. rewrite callAI_chat_run by done.
    unfold outcome_of, read_chat. by rewrite Hv, H2xx, Hbody, Hpath.
  - intros -> Hv Hpath. rewrite callAI_gemini_run by done.
    unfold outcome_of, read_gemini. by rewrite Hv, H2xx, Hbody, Hpath.
Qed.

Lemma missing_content_witness :
  is_2xx 200 = true
  ∧ nullish (JObj []) = false
  ∧ McpClient.enhanceText "http://localhost:3001" "deepseek"
      (gateway_answers 200 (JObj [("success", JBool true);
                                  ("enhancedText", JStr "")]))
      (fun lit => lit) "We build apps" (Some "gemini")
    = McpClient.Returned "".
Proof.
  split_and!; [reflexivity..|].
  refine (proj2 (missing_content_text_or_empty_by_provider ∅
                   (answers 200 (JObj [])) [] "http://localhost:3001"
                   "deepseek"
                   (gateway_answers 200
                      (JObj [("success", JBool true);
                             ("enhancedText", JStr "")]))
                   (fun lit => lit) "We build apps" (Some "gemini") 200
                   (JObj []) _ eq_refl eq_refl) eq_refl eq_refl eq_refl).
  intros reply w' Hrun. vm_compute in Hrun. by injection Hrun as <- _.
Defined.

(** X26. The text the vendor wrote is the text the client returns: behind
    a chat-style provider, the string content of the first choice of a 2xx
    answer; behind gemini, the non-empty text of the first part. *)
Theorem client_returns_the_vendor_text
    env vendor w url dp post strval text provider st body enhanced :
  (∀ reply w',
     text_enhancement env vendor
       (JObj [("text", JStr text); ("provider", JStr (default dp provider))]) w
     = (Return reply, w') →
     post (url +:+ "/mcp/text-enhancement")
       (JObj [("text", JStr text); ("provider", JStr (default dp provider))])
     = McpClient.Answered (code reply) (Some (payload reply))) →
  is_2xx st = true →
  (default dp provider ∈ chat_providers →
   vendor (chat_request env (default dp provider) (JStr ENHANCE_PROMPT)
             (JStr text)) = Response st body →
   at_path body chat_path = Some (JStr enhanced) →
   McpClient.enhanceText url dp post strval text provider
   = McpClient.Returned enhanced)
  ∧ (default dp provider = "gemini" →
     vendor (gemini_request env (JStr ENHANCE_PROMPT) (JStr text))
     = Response st body →
     at_path body gemini_path = Some (JStr enhanced) →
     enhanced ≠ "" →
     McpClient.enhanceText url dp post strval text provider
     = McpClient.Returned enhanced).
Proof.
  intros Hserved H2xx.
  rewrite (enhanceText_through_gateway env vendor w) by done. split.
  - intros Hp Hv Hpath. rewrite callAI_chat_run by done.
    unfold outcome_of, read_chat.
    by rewrite Hv, H2xx, (at_path_not_nullish _ _ _ _ Hpath), Hpath.
  - intros -> Hv Hpath Hne. rewrite callAI_gemini_run by done.
    unfold outcome_of, read_gemini.
    rewrite Hv, H2xx, (at_path_not_nullish _ _ _ _ Hpath), Hpath.
    cbn [default from_option id]. rewrite truthy_JStr.
    by rewrite decide_False.
Qed.

Lemma client_returns_the_vendor_text_witness :
  is_2xx 200 = true
  ∧ McpClient.enhanceText "http://localhost:3001" "deepseek"
      (gateway_answers 200
         (JObj [("success", JBool true);
                ("enhancedText", JStr "We build high-quality applications.")]))
      (fun lit => lit) "We build apps" (Some "groq")
    = McpClient.Returned "We build high-quality applications.".
Proof.
  assert (default "deepseek" (Some "groq") ∈ chat_providers) as Hc
    by (unfold chat_providers; set_solver).
  split; [reflexivity|].
  refine (proj1 (client_returns_the_vendor_text ∅
                   (answers 200
                      (chat_body "We build high-quality applications."))
                   [] "http://localhost:3001" "deepseek"
                   (gateway_answers 200
                      (JObj [("success", JBool true);
                             ("enhancedText",
                              JStr "We build high-quality applications.")]))
                   (fun lit => lit) "We build apps" (Some "groq") 200
                   (chat_body "We build high-quality applications.")
                   "We build high-quality applications." _ eq_refl)
            Hc eq_refl eq_refl).
  intros reply w' Hrun. vm_compute in Hrun. by injection Hrun as <- _.
Defined.

(** X27. Through controller, client and gateway together: for a valid
    request, when the provider call throws at the gateway the proposal is
    stored with its original text as enhanced text, and when a chat-style
    vendor answers 2xx with a string content the proposal is stored with that
    string; both times the answer is 201 and the status draft. *)
Theorem create_over_the_gateway
    env vendor w url dp post strval validate {Carbon : Type}
    request (now : Carbon) db text t :
  validate request = Some (text, t) →
  (∀ reply w',
     text_enhancement env vendor
       (JObj [("text", JStr text); ("provider", JStr dp)]) w
     = (Return reply, w') →
     post (url +:+ "/mcp/text-enhancement")
       (JObj [("text", JStr text); ("provider", JStr dp)])
     = McpClient.Answered (code reply) (Some (payload reply))) →
  let stored enhanced :=
    BusinessProposalController.mkProposal
      (BusinessProposalController.next_id db) t text enhanced "draft"
      now now in
  let answered enhanced :=
    (BusinessProposalController.Responds
       (BusinessProposalController.JsonResponse 201 (stored enhanced)),
     BusinessProposalController.mkTable
       (BusinessProposalController.rows db ++ [stored enhanced])
       (S (BusinessProposalController.next_id db))) in
  (∀ e w',
     callAI env vendor (JStr dp) (JStr ENHANCE_PROMPT) (JStr text) w
     = (Throw e, w') →
     BusinessProposalController.createBusinessProposal url dp post strval
       validate request now db = answered text)
  ∧ (∀ st body enhanced,
       dp ∈ chat_providers →
       vendor (chat_request env dp (JStr ENHANCE_PROMPT) (JStr text))
       = Response st body →
       is_2xx st = true →
       at_path body chat_path = Some (JStr enhanced) →
       BusinessProposalController.createBusinessProposal url dp post strval
         validate request now db = answered enhanced).
Proof.
  intros Hv Hserved stored answered.
  rewrite (create_run url dp post strval validate request now db text t Hv).
  rewrite (enhanceText_through_gateway env vendor w url dp post strval text
             None Hserved).
  cbn [default from_option id]. split.
  - intros e w' Hthrow. by rewrite Hthrow.
  - intros st body enhanced Hp Hvendor H2xx Hpath.
    rewrite callAI_chat_run by done. unfold outcome_of, read_chat.
    by rewrite Hvendor, H2xx, (at_path_not_nullish _ _ _ _ Hpath), Hpath.
Qed.

Lemma create_over_the_gateway_witness :
  validate_text_title web_request = Some ("We build apps", "Web Proposal")
  ∧ BusinessProposalController.createBusinessProposal
      "http://localhost:3001" "deepseek"
      (gateway_answers 500 (failure_payload "Failed to enhance text"))
      (fun lit => lit) validate_text_title web_request "2024-01-01"
      empty_table
    = (BusinessProposalController.Responds
         (BusinessProposalController.JsonResponse 201 stored_proposal),
       one_row_table).
Proof.
  split; [reflexivity|].
  refine (proj1 (create_over_the_gateway ∅ unreachable []
                   "http://localhost:3001" "deepseek"
                   (gateway_answers 500
                      (failure_payload "Failed to enhance text"))
                   (fun lit => lit) validate_text_title web_request
                   "2024-01-01" empty_table "We build apps" "Web Proposal"
                   eq_refl _)
            (AxiosError None)
            [chat_request ∅ "deepseek" (JStr ENHANCE_PROMPT)
               (JStr "We build apps")] eq_refl).
  intros reply w' Hrun. vm_compute in Hrun. by injection Hrun as <- _.
Defined.
